(** * Schluter DITRA-HEAT client and refresh coordinator

    A shallow embedding of [schluter_heat/api.py] (class [SchluterAPI]) and of
    [schluter_heat/__init__.py] (class [SchluterDataUpdateCoordinator]), with
    the entities of [climate.py] and [sensor.py] that read the poll result
    and write through the client.

    - JSON bodies are the values Python's [response.json()] produces.
    - The vendor backend is a deterministic function of the requests it has
      already received and of the request it is answering.
    - Python code that mutates [self] and may raise is written in a state
      and exception monad: the state reached before a [raise] is kept. *)

From Stdlib Require Import List String ZArith QArith Bool Arith Lia.
Import ListNotations.
Open Scope string_scope.
Open Scope list_scope.

(** ** JSON values and the Python operations the client applies to them *)

(** A number is its mathematical value: Python compares an [int] and a
    [float] by value, and so does [==] on what [json.loads] returns.
    Non-finite floats are not JSON numbers and are left out. *)
#[local] Set Warnings "-register-all".
Inductive json : Type :=
| JNull
| JBool (b : bool)
| JNum (q : Q)
| JStr (s : string)
| JArr (l : list json)
| JObj (m : list (string * json)).

(** [bool(v)], as in [if not self._session_id]. *)
Definition truthy (v : json) : bool :=
  match v with
  | JNull => false
  | JBool b => b
  | JNum q => negb (Qeq_bool q 0)
  | JStr s => negb (String.eqb s EmptyString)
  | JArr l => match l with [] => false | _ => true end
  | JObj m => match m with [] => false | _ => true end
  end.

(** Lookup in a parsed JSON object. *)
Fixpoint dict_get (m : list (string * json)) (k : string) : option json :=
  match m with
  | [] => None
  | (k', v) :: m' => if String.eqb k' k then Some v else dict_get m' k
  end.

(** [k in data] on a dict. *)
Definition dict_has (m : list (string * json)) (k : string) : bool :=
  match dict_get m k with Some _ => true | None => false end.

(** The numeric value of a Python object that compares as a number
    ([True == 1] and [False == 0]). *)
Definition num_of (v : json) : option Q :=
  match v with
  | JBool b => Some (if b then 1 else 0)%Q
  | JNum q => Some q
  | _ => None
  end.

(** [v == t] for a float [t]. *)
Definition py_eq_float (v : json) (t : Q) : bool :=
  match num_of v with
  | Some q => Qeq_bool q t
  | None => false
  end.

(** Hashable JSON values, and the equality a Python [dict] uses on them. *)
Definition hashable (v : json) : bool :=
  match v with
  | JArr _ | JObj _ => false
  | _ => true
  end.

Definition key_eqb (a b : json) : bool :=
  match a, b with
  | JNull, JNull => true
  | JStr s, JStr t => String.eqb s t
  | _, _ =>
      match num_of a, num_of b with
      | Some p, Some q => Qeq_bool p q
      | _, _ => false
      end
  end.

(** ** Exceptions *)

(** The three messages [_async_update_data] puts in [UpdateFailed]. *)
Inductive failure : Type :=
| AuthenticationFailed   (* "Authentication failed. Please update your refresh token." *)
| ConnectionFailed       (* "Connection failed: ..." *)
| ErrorCommunicating.    (* "Error communicating with API: ..." *)

(** Every class below derives from [Exception]. [PyError] stands for any
    other exception: [KeyError], [TypeError], [AttributeError], and what
    aiohttp raises for a transport error, a status of 400 or more or a body
    that is not JSON. *)
Inductive exn : Type :=
| SchluterAuthenticationError
| SchluterAPIError
| ValueError
| UpdateFailed (why : failure)
| RecursionError
| PyError.

Inductive result (A : Type) : Type :=
| Ok (a : A)
| Raise (e : exn).
Arguments Ok {A} a.
Arguments Raise {A} e.

(** ** State and exception monad *)

Definition M (S A : Type) : Type := S -> result A * S.

Definition ret {S A} (a : A) : M S A := fun s => (Ok a, s).

Definition raise {S A} (e : exn) : M S A := fun s => (Raise e, s).

Definition bind {S A B} (m : M S A) (k : A -> M S B) : M S B :=
  fun s =>
    match m s with
    | (Ok a, s') => k a s'
    | (Raise e, s') => (Raise e, s')
    end.

(** [try: m  except Exception as e: h e]. *)
Definition try_except {S A} (m : M S A) (h : exn -> M S A) : M S A :=
  fun s =>
    match m s with
    | (Ok a, s') => (Ok a, s')
    | (Raise e, s') => h e s'
    end.

Definition get {S} : M S S := fun s => (Ok s, s).

Definition modify {S} (f : S -> S) : M S unit := fun s => (Ok tt, f s).

Definition lift_result {S A} (r : result A) : M S A := fun s => (r, s).

Declare Scope py_scope.
Delimit Scope py_scope with py.
Notation "x <- m ;; k" := (bind m (fun x => k))
  (at level 100, m at next level, right associativity) : py_scope.
Notation "m ;;; k" := (bind m (fun _ => k))
  (at level 100, right associativity) : py_scope.
Open Scope py_scope.

(** Sequencing of pure steps that may raise. *)
Definition bind_r {A B} (r : result A) (k : A -> result B) : result B :=
  match r with
  | Ok a => k a
  | Raise e => Raise e
  end.
Notation "x <~ r ;; k" := (bind_r r (fun x => k))
  (at level 100, r at next level, right associativity) : py_scope.

(** [data.get(k, default)]: [AttributeError] unless [data] is a dict. *)
Definition py_get (data : json) (k : string) (default : json) : result json :=
  match data with
  | JObj m => Ok (match dict_get m k with Some v => v | None => default end)
  | _ => Raise PyError
  end.

(** [k in data] and [data[k]]. Both are reached only after [data.get] or
    [data.keys] has required a dict, so the other cases of Python's [in]
    (substring, list membership) are not spelled out. *)
Definition py_in (k : string) (data : json) : result bool :=
  match data with
  | JObj m => Ok (dict_has m k)
  | _ => Raise PyError
  end.

Definition py_index (data : json) (k : string) : result json :=
  match data with
  | JObj m => match dict_get m k with Some v => Ok v | None => Raise PyError end
  | _ => Raise PyError
  end.

(** [data.keys()], whose only use is to need a dict. *)
Definition py_keys (data : json) : result (list string) :=
  match data with
  | JObj m => Ok (map fst m)
  | _ => Raise PyError
  end.

(** [v[:20]]: strings and lists can be sliced. *)
Definition py_slice (v : json) : result unit :=
  match v with
  | JStr _ | JArr _ => Ok tt
  | _ => Raise PyError
  end.

(** [v > 0]. *)
Definition py_gt0 (v : json) : result bool :=
  match num_of v with
  | Some q => Ok (negb (Qle_bool q 0))
  | None => Raise PyError
  end.

(** [for x in v]: a list gives its items, a dict its keys, a string its
    characters; the other values are not iterable. *)
Fixpoint chars (s : string) : list json :=
  match s with
  | EmptyString => []
  | String c s' => JStr (String c EmptyString) :: chars s'
  end.

Definition py_iter (v : json) : result (list json) :=
  match v with
  | JArr l => Ok l
  | JObj m => Ok (map (fun kv => JStr (fst kv)) m)
  | JStr s => Ok (chars s)
  | _ => Raise PyError
  end.

(** ** Python dicts keyed by JSON values *)

(** Insertion order is kept, as [for k in d] follows it. *)
Definition pydict (V : Type) : Type := list (json * V).

(** [d[k] = v]: an equal key keeps its place and its key object. *)
Fixpoint dict_set {V} (d : pydict V) (k : json) (v : V) : pydict V :=
  match d with
  | [] => [(k, v)]
  | (k', v') :: d' =>
      if key_eqb k' k then (k', v) :: d' else (k', v') :: dict_set d' k v
  end.

(** [d[k]], a [KeyError] when absent. *)
Fixpoint dict_index {V} (d : pydict V) (k : json) : result V :=
  match d with
  | [] => Raise PyError
  | (k', v) :: d' => if key_eqb k' k then Ok v else dict_index d' k
  end.

Definition keys {V} (d : pydict V) : list json := map fst d.

(** ** The thermostat snapshot *)

(** [name] is set from [.get("name", f"Device {device_id}")]: the value
    found, or the formatted default, kept unformatted. *)
Inductive DeviceName : Type :=
| NameValue (v : json)
| DefaultName (device_id : json).

Record SchluterThermostat : Type := mkThermostat {
  device_id : json;
  name : DeviceName;
  current_temp : json;
  target_temp : json;
  min_temp : json;
  max_temp : json;
  setpoint_mode : json;
  occupancy_mode : json;
  heating : bool;
  heating_percent : json;
  air_floor_mode : json;
  gfci_status : json;
  floor_setpoint_pwm : json;
  temp_display_status : json
}.

Definition set_name (n : DeviceName) (t : SchluterThermostat) : SchluterThermostat :=
  mkThermostat (device_id t) n (current_temp t) (target_temp t) (min_temp t)
    (max_temp t) (setpoint_mode t) (occupancy_mode t) (heating t)
    (heating_percent t) (air_floor_mode t) (gfci_status t)
    (floor_setpoint_pwm t) (temp_display_status t).

(** The constructor call of [get_thermostat_status], argument by argument. *)
Definition parse_thermostat (id : json) (data : json) : result SchluterThermostat :=
  display <~ py_get data "roomTemperatureDisplay" (JObj []) ;;
  v_current <~ py_get display "value" JNull ;;
  v_target <~ py_get data "roomSetpoint" JNull ;;
  v_min <~ py_get data "roomSetpointMin" (JNum 5) ;;
  v_max <~ py_get data "roomSetpointMax" (JNum 33) ;;
  v_mode <~ py_get data "setpointMode" JNull ;;
  v_occupancy <~ py_get data "occupancyMode" JNull ;;
  output <~ py_get data "outputPercentDisplay" (JObj []) ;;
  percent <~ py_get output "percent" (JNum 0) ;;
  v_heating <~ py_gt0 percent ;;
  v_air_floor <~ py_get data "airFloorMode" JNull ;;
  v_gfci <~ py_get data "gfciStatus" JNull ;;
  v_pwm <~ py_get data "floorSetpointPwm" JNull ;;
  v_status <~ py_get display "status" JNull ;;
  Ok (mkThermostat id (DefaultName id) v_current v_target v_min v_max v_mode
        v_occupancy v_heating percent v_air_floor v_gfci v_pwm v_status).

(** ** The wire *)

(** One constructor per endpoint the client calls. [session] is the
    [session-id] header. *)
Inductive Request : Type :=
| PostLogin (refreshToken : string)
| PostConnect (refreshToken : string)
| GetDevices (session : option json) (location_id : Z)
| GetAttributes (session : option json) (device_id : json)
| PutAttribute (session : option json) (device_id : json)
               (attribute : string) (value : json).

(** An HTTP answer: status line and body, [None] when the body is not JSON. *)
Record Response : Type := mkResponse {
  status : Z;
  body : option json
}.

(** The backend answers a request from the requests sent before it; [None]
    is a transport error or a timeout. *)
Definition Backend : Type := list Request -> Request -> option Response.

(** ** [SchluterAPI] *)

(** [_session] is the HTTP session, seen as the requests sent through it. *)
Record SchluterAPI : Type := mkAPI {
  _session : list Request;
  _session_id : json;
  _refresh_token : option string;
  _access_token : json;
  _user_id : json;
  _account_id : json
}.

(** [SchluterAPI.__init__]. *)
Definition new_api : SchluterAPI :=
  mkAPI [] JNull None JNull JNull JNull.

Definition set_session_id (v : json) (a : SchluterAPI) : SchluterAPI :=
  mkAPI (_session a) v (_refresh_token a) (_access_token a) (_user_id a) (_account_id a).

Definition set_refresh_token (t : string) (a : SchluterAPI) : SchluterAPI :=
  mkAPI (_session a) (_session_id a) (Some t) (_access_token a) (_user_id a) (_account_id a).

Definition set_access_token (v : json) (a : SchluterAPI) : SchluterAPI :=
  mkAPI (_session a) (_session_id a) (_refresh_token a) v (_user_id a) (_account_id a).

Definition set_user_id (v : json) (a : SchluterAPI) : SchluterAPI :=
  mkAPI (_session a) (_session_id a) (_refresh_token a) (_access_token a) v (_account_id a).

Definition set_account_id (v : json) (a : SchluterAPI) : SchluterAPI :=
  mkAPI (_session a) (_session_id a) (_refresh_token a) (_access_token a) (_user_id a) v.

Definition record_request (r : Request) (a : SchluterAPI) : SchluterAPI :=
  mkAPI (_session a ++ [r]) (_session_id a) (_refresh_token a) (_access_token a)
        (_user_id a) (_account_id a).

(** [_get_headers]: the session header is present when the session is
    truthy. *)
Definition _get_headers (a : SchluterAPI) : option json :=
  if truthy (_session_id a) then Some (_session_id a) else None.

Section Client.

Variable backend : Backend.

(** [async with self._session.get/post/put(...) as response]. *)
Definition request (r : Request) : M SchluterAPI Response :=
  fun a =>
    match backend (_session a) r with
    | Some resp => (Ok resp, record_request r a)
    | None => (Raise PyError, record_request r a)
    end.

(** [response.raise_for_status()]. *)
Definition raise_for_status (resp : Response) : M SchluterAPI unit :=
  if (400 <=? status resp)%Z then raise PyError else ret tt.

(** [await response.json()]. *)
Definition response_json (resp : Response) : M SchluterAPI json :=
  match body resp with
  | Some data => ret data
  | None => raise PyError
  end.

(** [login]: everything sits in one [try], and every exception becomes
    [SchluterAuthenticationError]. *)
Definition login (refresh_token : string) : M SchluterAPI json :=
  try_except
    (resp <- request (PostLogin refresh_token) ;;
     raise_for_status resp ;;;
     data <- response_json resp ;;
     modify (set_refresh_token refresh_token) ;;;
     tok <- lift_result (py_get data "access_token" JNull) ;;
     modify (set_access_token tok) ;;;
     has_session <- lift_result (py_in "session" data) ;;
     (if has_session : bool then
        sid <- lift_result (py_index data "session") ;;
        modify (set_session_id sid) ;;;
        lift_result (py_slice sid)
      else ret tt) ;;;
     has_user <- lift_result (py_in "user" data) ;;
     (if has_user : bool then
        user <- lift_result (py_index data "user") ;;
        uid <- lift_result (py_get user "id" JNull) ;;
        modify (set_user_id uid) ;;;
        acc <- lift_result (py_get user "account$id" JNull) ;;
        (if truthy acc then modify (set_account_id acc)
         else
           account <- lift_result (py_get data "account" (JObj [])) ;;
           aid <- lift_result (py_get account "id" JNull) ;;
           modify (set_account_id aid))
      else ret tt) ;;;
     ret data)
    (fun _ => raise SchluterAuthenticationError).

(** [connect]: the [if]/[elif] chain over the three keys. *)
Definition connect : M SchluterAPI json :=
  a <- get ;;
  match _refresh_token a with
  | None => raise SchluterAuthenticationError
  | Some tok =>
      if String.eqb tok EmptyString then raise SchluterAuthenticationError
      else
        try_except
          (resp <- request (PostConnect tok) ;;
           raise_for_status resp ;;;
           data <- response_json resp ;;
           lift_result (py_keys data) ;;;
           session_id <-
             (in1 <- lift_result (py_in "session" data) ;;
              if in1 : bool then lift_result (py_index data "session")
              else
                in2 <- lift_result (py_in "sessionId" data) ;;
                if in2 : bool then lift_result (py_index data "sessionId")
                else
                  in3 <- lift_result (py_in "session_id" data) ;;
                  if in3 : bool then lift_result (py_index data "session_id")
                  else ret JNull) ;;
           if negb (truthy session_id) then raise SchluterAuthenticationError
           else
             modify (set_session_id session_id) ;;;
             lift_result (py_slice session_id) ;;;
             a' <- get ;;
             ret (_session_id a'))
          (fun e =>
             match e with
             | SchluterAuthenticationError => raise SchluterAuthenticationError
             | _ => raise SchluterAuthenticationError
             end)
  end.

(** [get_devices]: the session check is outside the [try]. *)
Definition get_devices (location_id : Z) : M SchluterAPI json :=
  a <- get ;;
  if negb (truthy (_session_id a)) then raise SchluterAuthenticationError
  else
    try_except
      (resp <- request (GetDevices (_get_headers a) location_id) ;;
       raise_for_status resp ;;;
       data <- response_json resp ;;
       lift_result (py_get data "devices" (JArr [])))
      (fun _ => raise SchluterAPIError).

(** [get_thermostat_status]. *)
Definition get_thermostat_status (id : json) : M SchluterAPI SchluterThermostat :=
  a <- get ;;
  if negb (truthy (_session_id a)) then raise SchluterAuthenticationError
  else
    try_except
      (resp <- request (GetAttributes (_get_headers a) id) ;;
       raise_for_status resp ;;;
       data <- response_json resp ;;
       lift_result (parse_thermostat id data))
      (fun _ => raise SchluterAPIError).

(** [set_temperature]: the echoed [roomSetpoint] is compared with the
    request. *)
Definition set_temperature (id : json) (temperature : Q) : M SchluterAPI bool :=
  a <- get ;;
  if negb (truthy (_session_id a)) then raise SchluterAuthenticationError
  else
    try_except
      (resp <- request (PutAttribute (_get_headers a) id "roomSetpoint" (JNum temperature)) ;;
       raise_for_status resp ;;;
       data <- response_json resp ;;
       echoed <- lift_result (py_get data "roomSetpoint" JNull) ;;
       if py_eq_float echoed temperature then ret true else ret false)
      (fun _ => raise SchluterAPIError).

(** [mode not in ["manual", "schedule"]]. *)
Definition valid_mode (mode : string) : bool :=
  existsb (String.eqb mode) ["manual"; "schedule"].

(** [set_mode]: the body of the answer is not read. *)
Definition set_mode (id : json) (mode : string) : M SchluterAPI bool :=
  if negb (valid_mode mode) then raise ValueError
  else
    a <- get ;;
    if negb (truthy (_session_id a)) then raise SchluterAuthenticationError
    else
      try_except
        (resp <- request (PutAttribute (_get_headers a) id "setpointMode" (JStr mode)) ;;
         raise_for_status resp ;;;
         ret true)
        (fun _ => raise SchluterAPIError).

(** [occupancy not in ["home", "away"]]. *)
Definition valid_occupancy (occupancy : string) : bool :=
  existsb (String.eqb occupancy) ["home"; "away"].

(** [set_occupancy_mode]. *)
Definition set_occupancy_mode (id : json) (occupancy : string) : M SchluterAPI bool :=
  if negb (valid_occupancy occupancy) then raise ValueError
  else
    a <- get ;;
    if negb (truthy (_session_id a)) then raise SchluterAuthenticationError
    else
      try_except
        (resp <- request (PutAttribute (_get_headers a) id "occupancyMode" (JStr occupancy)) ;;
         raise_for_status resp ;;;
         ret true)
        (fun _ => raise SchluterAPIError).

(** [logout]: returns at once when there is no session. *)
Definition logout : M SchluterAPI bool :=
  a <- get ;;
  if negb (truthy (_session_id a)) then ret true
  else
    modify (set_session_id JNull) ;;;
    modify (set_access_token JNull) ;;;
    ret true.

End Client.

(** ** [SchluterDataUpdateCoordinator] *)

(** [refresh_token] is [config_entry.data[CONF_REFRESH_TOKEN]];
    [reauth_flows] counts the reauth flows handed to
    [hass.async_create_task]. *)
Record SchluterDataUpdateCoordinator : Type := mkCoordinator {
  api : SchluterAPI;
  location_id : Z;
  devices : pydict json;
  refresh_token : string;
  reauth_flows : nat
}.

(** [SchluterDataUpdateCoordinator.__init__]. *)
Definition new_coordinator (a : SchluterAPI) (location : Z) (token : string)
  : SchluterDataUpdateCoordinator :=
  mkCoordinator a location [] token 0.

Definition set_api (a : SchluterAPI) (c : SchluterDataUpdateCoordinator)
  : SchluterDataUpdateCoordinator :=
  mkCoordinator a (location_id c) (devices c) (refresh_token c) (reauth_flows c).

Definition set_devices (d : pydict json) (c : SchluterDataUpdateCoordinator)
  : SchluterDataUpdateCoordinator :=
  mkCoordinator (api c) (location_id c) d (refresh_token c) (reauth_flows c).

Definition start_reauth_flow (c : SchluterDataUpdateCoordinator)
  : SchluterDataUpdateCoordinator :=
  mkCoordinator (api c) (location_id c) (devices c) (refresh_token c) (S (reauth_flows c)).

(** [await self.api.f(...)]. *)
Definition on_api {A} (m : M SchluterAPI A) : M SchluterDataUpdateCoordinator A :=
  fun c =>
    match m (api c) with
    | (r, a) => (r, set_api a c)
    end.

(** [self.devices[device_id].get("name", f"Device {device_id}")]. *)
Definition device_name (device : json) (id : json) : result DeviceName :=
  match device with
  | JObj m => Ok (match dict_get m "name" with
                  | Some v => NameValue v
                  | None => DefaultName id
                  end)
  | _ => Raise PyError
  end.

Section Coordinator.

Variable backend : Backend.

(** [for device in device_list: self.devices[device["id"]] = device],
    one assignment after the other on the coordinator's own dict. *)
Fixpoint store_devices (device_list : list json) : M SchluterDataUpdateCoordinator unit :=
  match device_list with
  | [] => ret tt
  | device :: rest =>
      id <- lift_result (py_index device "id") ;;
      (if hashable id
       then modify (fun c => set_devices (dict_set (devices c) id device) c)
       else raise PyError) ;;;
      store_devices rest
  end.

(** [if not self.devices: ...]. *)
Definition discover : M SchluterDataUpdateCoordinator unit :=
  c <- get ;;
  match devices c with
  | [] =>
      device_list <- on_api (get_devices backend (location_id c)) ;;
      items <- lift_result (py_iter device_list) ;;
      store_devices items
  | _ :: _ => ret tt
  end.

(** [for device_id in self.devices: try: ... except SchluterAPIError:
    continue], with [data] the dict built so far. *)
Fixpoint poll_devices (ids : list json) (data : pydict SchluterThermostat)
  : M SchluterDataUpdateCoordinator (pydict SchluterThermostat) :=
  match ids with
  | [] => ret data
  | id :: rest =>
      data' <-
        try_except
          (st <- on_api (get_thermostat_status backend id) ;;
           c <- get ;;
           device <- lift_result (dict_index (devices c) id) ;;
           nm <- lift_result (device_name device id) ;;
           ret (dict_set data id (set_name nm st)))
          (fun e =>
             match e with
             | SchluterAPIError => ret data
             | _ => raise e
             end) ;;
      poll_devices rest data'
  end.

(** The body of the outer [try] of [_async_update_data]. *)
Definition update_body : M SchluterDataUpdateCoordinator (pydict SchluterThermostat) :=
  discover ;;;
  c <- get ;;
  poll_devices (keys (devices c)) [].

(** [_async_update_data]. [depth] is the number of nested calls the
    interpreter still allows: the call that exceeds it raises
    [RecursionError]. *)
Fixpoint _async_update_data (depth : nat)
  : M SchluterDataUpdateCoordinator (pydict SchluterThermostat) :=
  match depth with
  | O => raise RecursionError
  | S depth' =>
      try_except update_body
        (fun err =>
           match err with
           | SchluterAuthenticationError =>
               try_except
                 (c <- get ;;
                  on_api (login backend (refresh_token c)) ;;;
                  _async_update_data depth')
                 (fun reconnect_err =>
                    match reconnect_err with
                    | SchluterAuthenticationError =>
                        modify start_reauth_flow ;;;
                        raise (UpdateFailed AuthenticationFailed)
                    | _ => raise (UpdateFailed ConnectionFailed)
                    end)
           | _ => raise (UpdateFailed ErrorCommunicating)
           end)
  end.

End Coordinator.

(** The [login] requests among the requests sent. *)
Definition is_login (r : Request) : bool :=
  match r with PostLogin _ => true | _ => false end.

(** The device-list requests. *)
Definition is_get_devices (r : Request) : bool :=
  match r with GetDevices _ _ => true | _ => false end.

Definition logins (l : list Request) : nat := List.length (filter is_login l).

(** ** What the spec calls a match *)

(** The ordered candidate keys of the spec: [session], then [sessionId],
    then [session_id], the first one present in the body wins. *)
Definition session_keys : list string := ["session"; "sessionId"; "session_id"].

Fixpoint first_match (m : list (string * json)) (candidates : list string) : option json :=
  match candidates with
  | [] => None
  | k :: rest =>
      match dict_get m k with
      | Some v => Some v
      | None => first_match m rest
      end
  end.

(** The echoed value equals the requested temperature: the body has the
    attribute and its value is the same number. *)
Definition echo_equals (data : list (string * json)) (attribute : string) (t : Q) : Prop :=
  exists v q, dict_get data attribute = Some v /\ num_of v = Some q /\ (q == t)%Q.

(** ** Definitions used by the statements, and scenarios *)

(** Unfolds the monad so that a call computes. *)
Ltac run :=
  unfold bind, try_except, get, ret, raise, modify, lift_result; simpl.

(** A backend that answers every request with status 200 and an empty
    object. *)
Definition backend_ok : Backend := fun _ _ => Some (mkResponse 200 (Some (JObj []))).

(** A backend that answers every write with 21 degrees, manual mode and
    home occupancy, whatever was asked. *)
Definition backend_clamping : Backend :=
  fun _ _ =>
    Some (mkResponse 200 (Some (JObj [("roomSetpoint", JNum 21);
                                      ("setpointMode", JStr "manual");
                                      ("occupancyMode", JStr "home")]))).

(** A client whose session is established. *)
Definition api_sessioned : SchluterAPI := set_session_id (JStr "s1") new_api.

(** A backend whose [connect] answer has no [session] key and two of the
    other candidates. *)
Definition backend_two_keys : Backend :=
  fun _ _ =>
    Some (mkResponse 200 (Some (JObj [("session_id", JStr "B"); ("sessionId", JStr "A")]))).

(** A client that has logged in and has no session. *)
Definition api_logged_in : SchluterAPI := set_refresh_token "tok" new_api.

(** The keys of a dict: each equal to itself and to no later one. *)
Inductive distinct_keys : list json -> Prop :=
| distinct_nil : distinct_keys []
| distinct_cons k l :
    key_eqb k k = true ->
    Forall (fun k' => key_eqb k k' = false) l ->
    distinct_keys l ->
    distinct_keys (k :: l).

(** A device directory as discovery builds it: distinct keys, and a JSON
    object for every device. *)
Definition directory_wf (d : pydict json) : Prop :=
  distinct_keys (keys d) /\ Forall (fun kv => exists m, snd kv = JObj m) d.

(** The client after the requests [new] have gone through its HTTP
    session. *)
Definition sent_more (new : list Request) (a : SchluterAPI) : SchluterAPI :=
  mkAPI (_session a ++ new) (_session_id a) (_refresh_token a) (_access_token a)
        (_user_id a) (_account_id a).

(** The devices of [ids] whose status call fails with [SchluterAPIError]
    when the calls are made in this order from the client state [a]. *)
Fixpoint failing (backend : Backend) (a : SchluterAPI) (ids : list json) : list json :=
  match ids with
  | [] => []
  | id :: rest =>
      match get_thermostat_status backend id a with
      | (Raise SchluterAPIError, a') => id :: failing backend a' rest
      | (_, a') => failing backend a' rest
      end
  end.

(** The device list indexed by [id], starting from the dict [d]. *)
Definition index_into (d : pydict json) (device_list : list json) : pydict json :=
  fold_left
    (fun acc device =>
       match py_index device "id" with
       | Ok id => dict_set acc id device
       | Raise _ => acc
       end)
    device_list d.

(** The directory a discovery from an empty one builds. *)
Definition index_by_id (device_list : list json) : pydict json :=
  index_into [] device_list.

(** A record discovery can index: an object whose [id] is hashable. *)
Definition indexable (device : json) : Prop :=
  exists id, py_index device "id" = Ok id /\ hashable id = true.

(** What the handler of [SchluterAuthenticationError] does from the state
    [c1] the failed body left. *)
Definition relogin_and_retry
  (backend : Backend) (depth : nat) (c1 : SchluterDataUpdateCoordinator)
  : result (pydict SchluterThermostat) * SchluterDataUpdateCoordinator :=
  match login backend (refresh_token c1) (api c1) with
  | (Ok _, a2) =>
      match _async_update_data backend depth (set_api a2 c1) with
      | (Ok data, c3) => (Ok data, c3)
      | (Raise SchluterAuthenticationError, c3) =>
          (Raise (UpdateFailed AuthenticationFailed), start_reauth_flow c3)
      | (Raise _, c3) => (Raise (UpdateFailed ConnectionFailed), c3)
      end
  | (Raise SchluterAuthenticationError, a2) =>
      (Raise (UpdateFailed AuthenticationFailed), start_reauth_flow (set_api a2 c1))
  | (Raise _, a2) => (Raise (UpdateFailed ConnectionFailed), set_api a2 c1)
  end.

(** A device record as the backend lists it. *)
Definition device_record (n : Z) (nm : string) : json :=
  JObj [("id", JNum (inject_Z n)); ("name", JStr nm)].

(** Three devices, the second of which the backend rejects. *)
Definition backend_one_fails : Backend :=
  fun _ r =>
    match r with
    | GetDevices _ _ =>
        Some (mkResponse 200
                (Some (JObj [("devices", JArr [device_record 1 "Bath";
                                               device_record 2 "Hall";
                                               device_record 3 "Kitchen"])])))
    | GetAttributes _ (JNum q) =>
        if Qeq_bool q 2 then Some (mkResponse 500 None)
        else Some (mkResponse 200 (Some (JObj [("roomSetpoint", JNum 21)])))
    | _ => None
    end.

(** A coordinator whose client has a session and whose directory is
    empty. *)
Definition coordinator_sessioned : SchluterDataUpdateCoordinator :=
  new_coordinator api_sessioned 7 "tok".

(** A backend whose device list has a second record without an id. *)
Definition backend_missing_id : Backend :=
  fun _ r =>
    match r with
    | GetDevices _ _ =>
        Some (mkResponse 200
                (Some (JObj [("devices", JArr [device_record 1 "Bath";
                                               JObj [("name", JStr "Hall")]])])))
    | GetAttributes _ _ =>
        Some (mkResponse 200 (Some (JObj [("roomSetpoint", JNum 21)])))
    | _ => None
    end.

(** A backend whose login answers carry no session for the first two
    logins and which rejects the third. *)
Definition backend_sessionless_login : Backend :=
  fun sent r =>
    match r with
    | PostLogin _ =>
        if Nat.ltb (logins sent) 2
        then Some (mkResponse 200 (Some (JObj [("user", JObj [("id", JNum 9)])])))
        else Some (mkResponse 401 None)
    | _ => None
    end.

(** A coordinator whose client has logged in and has no session. *)
Definition coordinator_logged_in : SchluterDataUpdateCoordinator :=
  new_coordinator api_logged_in 7 "tok".

(** A backend that rejects session s1 as expired, and serves session s2,
    which a login would give. *)
Definition backend_expired_session : Backend :=
  fun _ r =>
    match r with
    | PostLogin _ => Some (mkResponse 200 (Some (JObj [("session", JStr "s2")])))
    | GetAttributes (Some (JStr s)) _ =>
        if String.eqb s "s2"
        then Some (mkResponse 200 (Some (JObj [("roomSetpoint", JNum 21)])))
        else Some (mkResponse 401 None)
    | GetDevices _ _ =>
        Some (mkResponse 200 (Some (JObj [("devices", JArr [device_record 1 "Bath"])])))
    | _ => Some (mkResponse 401 None)
    end.

(** A coordinator with session s1 that has discovered one device. *)
Definition coordinator_one_device : SchluterDataUpdateCoordinator :=
  set_devices [(JNum 1, device_record 1 "Bath")] coordinator_sessioned.

(** The coordinator of [coordinator_one_device] after its session was
    invalidated. *)
Definition coordinator_invalidated : SchluterDataUpdateCoordinator :=
  set_api (snd (logout api_sessioned)) coordinator_one_device.

(** ** Definitions for the further properties *)

(** An attribute map [get_thermostat_status] can turn into a snapshot: the
    two display attributes are objects when present, and the heating
    percentage, when given, is a number. *)
Definition status_payload_ok (m : list (string * json)) : Prop :=
  match dict_get m "roomTemperatureDisplay" with
  | None | Some (JObj _) => True
  | Some _ => False
  end /\
  match dict_get m "outputPercentDisplay" with
  | None => True
  | Some (JObj output) =>
      match dict_get output "percent" with
      | None => True
      | Some percent => num_of percent <> None
      end
  | Some _ => False
  end.

(** A backend whose attribute map has a null heating percentage. *)
Definition backend_null_percent : Backend :=
  fun _ _ =>
    Some (mkResponse 200
            (Some (JObj [("roomSetpoint", JNum 21);
                         ("outputPercentDisplay", JObj [("percent", JNull)])]))).

(** What an entry of a poll result is, given the directory: the snapshot
    has the key as its device id, and the name of the device's record, or
    the default name when the record has none. *)
Definition entry_of_directory (d : pydict json) (kv : json * SchluterThermostat) : Prop :=
  device_id (snd kv) = fst kv /\
  exists m,
    dict_index d (fst kv) = Ok (JObj m) /\
    name (snd kv) = match dict_get m "name" with
                    | Some v => NameValue v
                    | None => DefaultName (fst kv)
                    end.

(** A backend whose answer to a request does not depend on the requests
    sent before it. *)
Definition history_independent (backend : Backend) : Prop :=
  forall sent sent' r, backend sent r = backend sent' r.

(** Cycles run one after the other, each with its own depth bound. The
    results are dropped: only the coordinator is threaded. *)
Fixpoint run_cycles (backend : Backend) (depths : list nat)
  (c : SchluterDataUpdateCoordinator) : SchluterDataUpdateCoordinator :=
  match depths with
  | [] => c
  | depth :: rest => run_cycles backend rest (snd (_async_update_data backend depth c))
  end.

(** ** The entities that read the poll result *)

(** [coordinator.data], the poll result the last cycle returned, is an
    attribute of the base class of the coordinator; the entities below take
    it as an argument. *)

(** [device_id in data], for a hashable [device_id]: the entities take
    theirs from the keys of a poll result. *)
Definition dict_contains {V} (d : pydict V) (k : json) : bool :=
  existsb (fun kv => key_eqb (fst kv) k) d.

(** [v == s] for a string [s]. *)
Definition py_eq_str (v : json) (s : string) : bool :=
  match v with
  | JStr s' => String.eqb s' s
  | _ => false
  end.

(** [v > q] and [v <= q] for a float [q]: a [TypeError] unless [v] compares
    as a number. *)
Definition py_gt (v : json) (q : Q) : result bool :=
  match num_of v with
  | Some p => Ok (negb (Qle_bool p q))
  | None => Raise PyError
  end.

Definition py_le (v : json) (q : Q) : result bool :=
  match num_of v with
  | Some p => Ok (Qle_bool p q)
  | None => Raise PyError
  end.

(** [a or b]. *)
Definition py_or (a b : json) : json := if truthy a then a else b.

Module Climate.

(** [HVACMode.HEAT] and [HVACMode.OFF], the members of [_attr_hvac_modes]. *)
Inductive HVACMode : Type := HEAT | OFF.

Inductive HVACAction : Type := HEATING | IDLE | ACTION_OFF.

(** The name [SchluterClimate.__init__] gives the device: the record's
    [name], or the formatted default "Thermostat <id>", kept unformatted. *)
Inductive EntityName : Type :=
| RecordName (v : json)
| ThermostatName (device_id : json).

Record SchluterClimate : Type := mkClimate {
  _device_id : json;
  device_info_name : EntityName
}.

(** [DEFAULT_MIN_TEMP] and [DEFAULT_MAX_TEMP] of [const.py]. *)
Definition DEFAULT_MIN_TEMP : Q := 5.
Definition DEFAULT_MAX_TEMP : Q := 33.

(** [SchluterClimate.__init__]. *)
Definition init (directory : pydict json) (id : json) : result SchluterClimate :=
  device <~ dict_index directory id ;;
  match device with
  | JObj m =>
      Ok (mkClimate id (match dict_get m "name" with
                        | Some v => RecordName v
                        | None => ThermostatName id
                        end))
  | _ => Raise PyError
  end.

(** The list comprehension of [async_setup_entry]. *)
Fixpoint init_all (directory : pydict json) (ids : list json) : result (list SchluterClimate) :=
  match ids with
  | [] => Ok []
  | id :: rest =>
      entity <~ init directory id ;;
      entities <~ init_all directory rest ;;
      Ok (entity :: entities)
  end.

(** [async_setup_entry]: the entities handed to [async_add_entities], none
    when the poll result is empty. *)
Definition async_setup_entry (directory : pydict json) (data : pydict SchluterThermostat)
  : result (list SchluterClimate) :=
  match data with
  | [] => Ok []
  | _ :: _ => init_all directory (keys data)
  end.

(** The [thermostat] property. *)
Definition thermostat (data : pydict SchluterThermostat) (id : json)
  : result SchluterThermostat :=
  dict_index data id.

(** The [hvac_mode] property. *)
Definition hvac_mode (t : SchluterThermostat) : result HVACMode :=
  if truthy (target_temp t) then
    above <~ py_gt (target_temp t) DEFAULT_MIN_TEMP ;;
    Ok (if above : bool then HEAT else OFF)
  else Ok OFF.

(** The [hvac_action] property. *)
Definition hvac_action (t : SchluterThermostat) : result HVACAction :=
  if heating t then Ok HEATING
  else
    mode <~ hvac_mode t ;;
    Ok (match mode with HEAT => IDLE | OFF => ACTION_OFF end).

(** The [preset_mode] property. *)
Definition preset_mode (t : SchluterThermostat) : string :=
  if py_eq_str (setpoint_mode t) "schedule" then "schedule"
  else if py_eq_str (occupancy_mode t) "away" then "away"
  else "home".

(** The [min_temp] and [max_temp] properties. *)
Definition min_temp (t : SchluterThermostat) : json :=
  py_or (min_temp t) (JNum DEFAULT_MIN_TEMP).

Definition max_temp (t : SchluterThermostat) : json :=
  py_or (max_temp t) (JNum DEFAULT_MAX_TEMP).

Section Writes.

Variable backend : Backend.

(** [async_set_hvac_mode], up to the refresh it requests at the end. *)
Definition async_set_hvac_mode (data : pydict SchluterThermostat) (id : json)
  (mode : HVACMode) : M SchluterAPI unit :=
  match mode with
  | HEAT =>
      t <- lift_result (thermostat data id) ;;
      too_low <- lift_result
                   (match target_temp t with
                    | JNull => Ok true
                    | v => py_le v DEFAULT_MIN_TEMP
                    end) ;;
      if too_low : bool then set_temperature backend id 20 ;;; ret tt else ret tt
  | OFF => set_temperature backend id DEFAULT_MIN_TEMP ;;; ret tt
  end.

(** [async_set_temperature]: [temperature] is [kwargs.get(ATTR_TEMPERATURE)]. *)
Definition async_set_temperature (id : json) (temperature : option Q) : M SchluterAPI unit :=
  match temperature with
  | None => ret tt
  | Some t => set_temperature backend id t ;;; ret tt
  end.

(** [async_set_preset_mode], up to the refresh it requests at the end. *)
Definition async_set_preset_mode (id : json) (preset : string) : M SchluterAPI unit :=
  if String.eqb preset "schedule" then
    set_mode backend id "schedule" ;;; ret tt
  else if String.eqb preset "away" then
    set_mode backend id "manual" ;;;
    set_occupancy_mode backend id "away" ;;; ret tt
  else if String.eqb preset "home" then
    set_mode backend id "manual" ;;;
    set_occupancy_mode backend id "home" ;;; ret tt
  else ret tt.

End Writes.

End Climate.

Module Sensor.

(** [SchluterGFCISensor._attr_options]. *)
Definition gfci_options : list string := ["ok"; "error"; "unknown"].

(** [SchluterGFCISensor.native_value]: [None] is no value. *)
Definition gfci_native_value (data : pydict SchluterThermostat) (id : json)
  : result (option json) :=
  if dict_contains data id then
    t <~ dict_index data id ;;
    Ok (Some (if existsb (py_eq_str (gfci_status t)) gfci_options
              then gfci_status t
              else JStr "unknown"))
  else Ok None.

(** [SchluterGFCISensor.icon], from the native value. *)
Definition gfci_icon (value : option json) : string :=
  match value with
  | Some v =>
      if py_eq_str v "ok" then "mdi:shield-check"
      else if py_eq_str v "error" then "mdi:shield-alert"
      else "mdi:shield-off"
  | None => "mdi:shield-off"
  end.

(** [SchluterHeatingTimeSensor]. [_heating_time] starts at 0.0 and only
    ever has 30 / 3600 added to it: [intervals] is the number of additions
    made, which determines the float. *)
Record HeatingTime : Type := mkHeatingTime {
  intervals : nat;
  _last_heating : bool
}.

(** [SchluterHeatingTimeSensor.__init__]. *)
Definition new_heating_time : HeatingTime := mkHeatingTime 0 false.

(** [SchluterHeatingTimeSensor._handle_coordinator_update]. *)
Definition _handle_coordinator_update (data : pydict SchluterThermostat) (id : json)
  (s : HeatingTime) : result HeatingTime :=
  if dict_contains data id then
    t <~ dict_index data id ;;
    let is_heating := heating t in
    Ok (mkHeatingTime
          (if is_heating && _last_heating s then S (intervals s) else intervals s)
          is_heating)
  else Ok s.

(** The updates of a list of poll results, one after the other. *)
Fixpoint handle_updates (updates : list (pydict SchluterThermostat)) (id : json)
  (s : HeatingTime) : result HeatingTime :=
  match updates with
  | [] => Ok s
  | data :: rest =>
      s' <~ _handle_coordinator_update data id s ;;
      handle_updates rest id s'
  end.

End Sensor.

(** ** A backend that keeps what is written *)

(** The attributes written to the device [id], the last write first. *)
Fixpoint writes_to (id : json) (sent_reversed : list Request) : list (string * json) :=
  match sent_reversed with
  | [] => []
  | PutAttribute _ id' attribute value :: rest =>
      if key_eqb id' id then (attribute, value) :: writes_to id rest
      else writes_to id rest
  | _ :: rest => writes_to id rest
  end.

(** The value last written to [attribute] of the device [id]. *)
Definition last_written (sent : list Request) (id : json) (attribute : string) : option json :=
  dict_get (writes_to id (rev sent)) attribute.

(** The backend accepts every write to the device [id], answering with a
    JSON object, and answers a status request with an attribute map that
    can be parsed and that holds, for each attribute of [attributes], the
    value last written when there is one. *)
Definition applies_writes (backend : Backend) (id : json) (attributes : list string) : Prop :=
  forall sent session,
    (forall attribute value,
       exists st m,
         backend sent (PutAttribute session id attribute value)
           = Some (mkResponse st (Some (JObj m))) /\ (st < 400)%Z) /\
    exists st m,
      backend sent (GetAttributes session id) = Some (mkResponse st (Some (JObj m))) /\
      (st < 400)%Z /\
      status_payload_ok m /\
      forall attribute value,
        In attribute attributes ->
        last_written sent id attribute = Some value ->
        dict_get m attribute = Some value.

(** The attributes [backend_keeping_writes] reports. *)
Definition kept_attribute (attribute : string) : bool :=
  existsb (String.eqb attribute) ["setpointMode"; "occupancyMode"; "roomSetpoint"].

(** A backend that keeps the mode, the occupancy and the setpoint written
    to each device and reports nothing else. *)
Definition backend_keeping_writes : Backend :=
  fun sent r =>
    match r with
    | PutAttribute _ _ _ _ => Some (mkResponse 200 (Some (JObj [])))
    | GetAttributes _ id =>
        Some (mkResponse 200
                (Some (JObj (filter (fun kv => kept_attribute (fst kv))
                                    (writes_to id (rev sent))))))
    | _ => None
    end.

(** Closes a case of a successful login. *)
Ltac login_done st m Es Eu :=
  let H := fresh "H" in
  intros H; inversion H; subst; exists st, m; rewrite ?Es, ?Eu;
  repeat split; try assumption; try reflexivity; try congruence.

(** A snapshot of a device that is heating, and a poll result holding
    it. *)
Definition snapshot_heating : SchluterThermostat :=
  mkThermostat (JNum 1) (DefaultName (JNum 1)) (JNum 20) (JNum 22) (JNum 5) (JNum 33)
    (JStr "manual") (JStr "home") true (JNum 40) JNull (JStr "tripped") JNull JNull.

Definition poll_result_heating : pydict SchluterThermostat :=
  [(JNum 1, snapshot_heating)].

(** * Properties of the client *)

Lemma valid_mode_In mode :
  valid_mode mode = true <-> In mode ["manual"; "schedule"].
Proof.
  unfold valid_mode. rewrite existsb_exists. split.
  - intros [x [Hin Heq]]. apply String.eqb_eq in Heq. subst x. exact Hin.
  - intros Hin. exists mode. split; [exact Hin | apply String.eqb_refl].
Qed.

Lemma valid_occupancy_In occupancy :
  valid_occupancy occupancy = true <-> In occupancy ["home"; "away"].
Proof.
  unfold valid_occupancy. rewrite existsb_exists. split.
  - intros [x [Hin Heq]]. apply String.eqb_eq in Heq. subst x. exact Hin.
  - intros Hin. exists occupancy. split; [exact Hin | apply String.eqb_refl].
Qed.

Lemma not_true_false (b : bool) : b <> true -> b = false.
Proof. destruct b; congruence. Qed.

Lemma set_mode_invalid backend id mode a :
  valid_mode mode = false ->
  set_mode backend id mode a = (Raise ValueError, a).
Proof. intros H. unfold set_mode. rewrite H. reflexivity. Qed.

Lemma set_occupancy_mode_invalid backend id occupancy a :
  valid_occupancy occupancy = false ->
  set_occupancy_mode backend id occupancy a = (Raise ValueError, a).
Proof. intros H. unfold set_occupancy_mode. rewrite H. reflexivity. Qed.

Lemma set_mode_no_session backend id mode a :
  valid_mode mode = true -> truthy (_session_id a) = false ->
  set_mode backend id mode a = (Raise SchluterAuthenticationError, a).
Proof. intros Hv Hs. unfold set_mode. rewrite Hv. run. rewrite Hs. reflexivity. Qed.

Lemma set_occupancy_mode_no_session backend id occupancy a :
  valid_occupancy occupancy = true -> truthy (_session_id a) = false ->
  set_occupancy_mode backend id occupancy a = (Raise SchluterAuthenticationError, a).
Proof. intros Hv Hs. unfold set_occupancy_mode. rewrite Hv. run. rewrite Hs. reflexivity. Qed.

(** C7. A mode outside manual and schedule given to [set_mode], and an
    occupancy outside home and away given to [set_occupancy_mode], raise
    [ValueError] at once: the client is left as it was, so no request has
    been sent, and nothing is tried again. *)
Theorem invalid_argument_rejected_before_network
  (backend : Backend) (id : json) (mode occupancy : string) (a : SchluterAPI) :
  ~ In mode ["manual"; "schedule"] ->
  ~ In occupancy ["home"; "away"] ->
  set_mode backend id mode a = (Raise ValueError, a) /\
  set_occupancy_mode backend id occupancy a = (Raise ValueError, a) /\
  _session (snd (set_mode backend id mode a)) = _session a /\
  _session (snd (set_occupancy_mode backend id occupancy a)) = _session a.
Proof.
  intros Hm Ho.
  assert (Em : valid_mode mode = false).
  { apply not_true_false. intros E. apply Hm, valid_mode_In, E. }
  assert (Eo : valid_occupancy occupancy = false).
  { apply not_true_false. intros E. apply Ho, valid_occupancy_In, E. }
  rewrite (set_mode_invalid backend id mode a Em).
  rewrite (set_occupancy_mode_invalid backend id occupancy a Eo).
  repeat split.
Qed.

Lemma invalid_argument_rejected_before_network_witness :
  set_mode backend_ok (JNum 1) "eco" new_api = (Raise ValueError, new_api) /\
  set_occupancy_mode backend_ok (JNum 1) "vacation" new_api = (Raise ValueError, new_api).
Proof.
  destruct (invalid_argument_rejected_before_network backend_ok (JNum 1)
              "eco" "vacation" new_api) as [H1 [H2 _]].
  - simpl. intros [H | [H | []]]; discriminate H.
  - simpl. intros [H | [H | []]]; discriminate H.
  - split; [exact H1 | exact H2].
Defined.

(** C10. In [set_mode] and [set_occupancy_mode] the argument is checked
    before the session: without a session an invalid value raises
    [ValueError] and a valid one [SchluterAuthenticationError], and with an
    invalid value the caller never sees an authentication failure, whatever
    the client's state. *)
Theorem validation_precedes_session_check
  (backend : Backend) (id : json) (mode occupancy : string) (a : SchluterAPI) :
  truthy (_session_id a) = false ->
  set_mode backend id mode a =
    (Raise (if valid_mode mode then SchluterAuthenticationError else ValueError), a) /\
  set_occupancy_mode backend id occupancy a =
    (Raise (if valid_occupancy occupancy then SchluterAuthenticationError else ValueError), a) /\
  (forall a', valid_mode mode = false ->
     fst (set_mode backend id mode a') <> Raise SchluterAuthenticationError) /\
  (forall a', valid_occupancy occupancy = false ->
     fst (set_occupancy_mode backend id occupancy a') <> Raise SchluterAuthenticationError).
Proof.
  intros Hs. repeat split.
  - destruct (valid_mode mode) eqn:E.
    + apply set_mode_no_session; assumption.
    + apply set_mode_invalid; assumption.
  - destruct (valid_occupancy occupancy) eqn:E.
    + apply set_occupancy_mode_no_session; assumption.
    + apply set_occupancy_mode_invalid; assumption.
  - intros a' E. rewrite (set_mode_invalid backend id mode a' E). simpl. discriminate.
  - intros a' E. rewrite (set_occupancy_mode_invalid backend id occupancy a' E).
    simpl. discriminate.
Qed.

Lemma validation_precedes_session_check_witness :
  set_mode backend_ok (JNum 1) "eco" new_api = (Raise ValueError, new_api) /\
  set_occupancy_mode backend_ok (JNum 1) "home" new_api =
    (Raise SchluterAuthenticationError, new_api).
Proof.
  destruct (validation_precedes_session_check backend_ok (JNum 1) "eco" "home"
              new_api) as [H1 [H2 _]].
  - reflexivity.
  - split; [exact H1 | exact H2].
Defined.

Lemma py_eq_float_echo (data : list (string * json)) (k : string) (t : Q) :
  py_eq_float (match dict_get data k with Some v => v | None => JNull end) t = true
  <-> echo_equals data k t.
Proof.
  unfold py_eq_float, echo_equals. split.
  - destruct (dict_get data k) as [v|]; simpl; [|discriminate].
    destruct (num_of v) as [q|] eqn:E; [|discriminate].
    intros H. exists v, q. repeat split; try assumption.
    apply Qeq_bool_iff, H.
  - intros [v [q [Hv [Hq Heq]]]]. rewrite Hv, Hq. apply Qeq_bool_iff, Heq.
Qed.

Lemma set_temperature_answered backend a id t st data :
  truthy (_session_id a) = true ->
  backend (_session a) (PutAttribute (_get_headers a) id "roomSetpoint" (JNum t))
    = Some (mkResponse st (Some (JObj data))) ->
  (st < 400)%Z ->
  set_temperature backend id t a =
    (Ok (py_eq_float (match dict_get data "roomSetpoint" with
                      | Some v => v | None => JNull end) t),
     record_request (PutAttribute (_get_headers a) id "roomSetpoint" (JNum t)) a).
Proof.
  intros Hs Hr Hst. unfold set_temperature. run. rewrite Hs. simpl.
  unfold request. rewrite Hr. unfold raise_for_status. simpl.
  apply Z.leb_gt in Hst. rewrite Hst. run.
  destruct (py_eq_float _ t); reflexivity.
Qed.

(** C5. With a session, when the backend answers [set_temperature(id, t)]
    with an attribute map, the call returns true exactly when the echoed
    [roomSetpoint] equals [t], and it returns false, raising nothing, when
    the echo is another value or is missing. *)
Theorem set_temperature_write_then_verify
  (backend : Backend) (a : SchluterAPI) (id : json) (t : Q)
  (st : Z) (data : list (string * json)) :
  truthy (_session_id a) = true ->
  backend (_session a) (PutAttribute (_get_headers a) id "roomSetpoint" (JNum t))
    = Some (mkResponse st (Some (JObj data))) ->
  (st < 400)%Z ->
  (fst (set_temperature backend id t a) = Ok true <-> echo_equals data "roomSetpoint" t) /\
  (fst (set_temperature backend id t a) = Ok false <-> ~ echo_equals data "roomSetpoint" t).
Proof.
  intros Hs Hr Hst.
  rewrite (set_temperature_answered backend a id t st data Hs Hr Hst). simpl.
  pose proof (py_eq_float_echo data "roomSetpoint" t) as E.
  destruct (py_eq_float _ t).
  - split; split; intros H.
    + apply E. reflexivity.
    + reflexivity.
    + discriminate H.
    + exfalso. apply H, E. reflexivity.
  - split; split; intros H.
    + discriminate H.
    + apply E in H. discriminate H.
    + intros C. apply E in C. discriminate C.
    + reflexivity.
Qed.

Lemma set_temperature_write_then_verify_witness :
  fst (set_temperature backend_clamping (JNum 1) 21 api_sessioned) = Ok true /\
  fst (set_temperature backend_clamping (JNum 1) 25 api_sessioned) = Ok false.
Proof.
  split.
  - apply (set_temperature_write_then_verify backend_clamping api_sessioned (JNum 1) 21
             200 [("roomSetpoint", JNum 21); ("setpointMode", JStr "manual");
                  ("occupancyMode", JStr "home")]); try reflexivity.
    exists (JNum 21), 21%Q. repeat split; reflexivity.
  - apply (set_temperature_write_then_verify backend_clamping api_sessioned (JNum 1) 25
             200 [("roomSetpoint", JNum 21); ("setpointMode", JStr "manual");
                  ("occupancyMode", JStr "home")]); try reflexivity.
    intros [v [q [Hv [Hq Heq]]]]. simpl in Hv. inversion Hv; subst v.
    simpl in Hq. inversion Hq; subst q. discriminate Heq.
Defined.

(** C6, at the failing input. With a session, [set_mode(1, "schedule")] and
    [set_occupancy_mode(1, "away")] return true although the backend echoes
    manual and home; [set_temperature(1, 25)] returns false on the echo 21. *)
Theorem set_mode_and_occupancy_ignore_echo :
  fst (set_mode backend_clamping (JNum 1) "schedule" api_sessioned) = Ok true /\
  fst (set_occupancy_mode backend_clamping (JNum 1) "away" api_sessioned) = Ok true /\
  fst (set_temperature backend_clamping (JNum 1) 25 api_sessioned) = Ok false.
Proof. repeat split. Qed.

(** ** [connect] *)

Lemma connect_no_token backend a :
  _refresh_token a = None \/ _refresh_token a = Some EmptyString ->
  connect backend a = (Raise SchluterAuthenticationError, a).
Proof.
  intros [H | H]; unfold connect; run; rewrite H; reflexivity.
Qed.

Lemma connect_only_auth_error backend a e :
  fst (connect backend a) = Raise e -> e = SchluterAuthenticationError.
Proof.
  unfold connect. run. destruct (_refresh_token a) as [tok|]; simpl.
  - destruct (tok =? EmptyString)%string; simpl.
    + intros H; inversion H; reflexivity.
    + destruct (request backend (PostConnect tok) a) as [[resp|e0] a1]; simpl.
      * match goal with
        | |- fst (match ?x with _ => _ end) = _ -> _ => destruct x as [[v|e1] a2]
        end; simpl.
        -- discriminate.
        -- destruct e1; simpl; intros H; inversion H; reflexivity.
      * destruct e0; simpl; intros H; inversion H; reflexivity.
  - intros H; inversion H; reflexivity.
Qed.

Lemma connect_answered backend a tok st m :
  _refresh_token a = Some tok -> tok <> EmptyString ->
  backend (_session a) (PostConnect tok) = Some (mkResponse st (Some (JObj m))) ->
  (st < 400)%Z ->
  let sid := match first_match m session_keys with Some v => v | None => JNull end in
  let sent := record_request (PostConnect tok) a in
  connect backend a =
    if truthy sid then
      match py_slice sid with
      | Ok _ => (Ok sid, set_session_id sid sent)
      | Raise _ => (Raise SchluterAuthenticationError, set_session_id sid sent)
      end
    else (Raise SchluterAuthenticationError, sent).
Proof.
  intros Ht Hne Hr Hst. unfold connect. run. rewrite Ht.
  apply String.eqb_neq in Hne. rewrite Hne. simpl.
  unfold request. rewrite Hr. unfold raise_for_status. simpl.
  apply Z.leb_gt in Hst. rewrite Hst. run.
  unfold dict_has, session_keys. simpl.
  destruct (dict_get m "session") as [v1|];
    [| destruct (dict_get m "sessionId") as [v2|];
       [| destruct (dict_get m "session_id") as [v3|]; [|reflexivity] ] ];
    simpl;
    (destruct (truthy _) eqn:E; simpl; [|reflexivity]);
    (destruct (py_slice _) as [[]|e]; simpl; [reflexivity|]);
    destruct e; reflexivity.
Qed.

Lemma connect_not_answered backend a tok :
  _refresh_token a = Some tok -> tok <> EmptyString ->
  match backend (_session a) (PostConnect tok) with
  | None => True
  | Some resp => (400 <= status resp)%Z \/ body resp = None
  end ->
  connect backend a =
    (Raise SchluterAuthenticationError, record_request (PostConnect tok) a).
Proof.
  intros Ht Hne Hr. unfold connect. run. rewrite Ht.
  apply String.eqb_neq in Hne. rewrite Hne. simpl.
  unfold request. destruct (backend _ _) as [resp|]; simpl; [|reflexivity].
  unfold raise_for_status. destruct (400 <=? status resp)%Z eqn:E; simpl.
  - reflexivity.
  - destruct Hr as [Hr | Hr].
    + apply Z.leb_gt in E. lia.
    + unfold response_json. rewrite Hr. reflexivity.
Qed.

Lemma connect_not_dict backend a tok st data :
  _refresh_token a = Some tok -> tok <> EmptyString ->
  backend (_session a) (PostConnect tok) = Some (mkResponse st (Some data)) ->
  (forall m, data <> JObj m) ->
  connect backend a =
    (Raise SchluterAuthenticationError, record_request (PostConnect tok) a).
Proof.
  intros Ht Hne Hr Hd. unfold connect. run. rewrite Ht.
  apply String.eqb_neq in Hne. rewrite Hne. simpl.
  unfold request. rewrite Hr. unfold raise_for_status. simpl.
  destruct (400 <=? st)%Z; simpl; [reflexivity|].
  destruct data; try reflexivity. exfalso. apply (Hd m). reflexivity.
Qed.

Lemma connect_success_inv backend a sid :
  fst (connect backend a) = Ok sid ->
  exists tok st m,
    _refresh_token a = Some tok /\ tok <> EmptyString /\
    backend (_session a) (PostConnect tok) = Some (mkResponse st (Some (JObj m))) /\
    (st < 400)%Z /\
    first_match m session_keys = Some sid /\
    truthy sid = true /\
    _session_id (snd (connect backend a)) = sid.
Proof.
  intros H.
  destruct (_refresh_token a) as [tok|] eqn:Ht;
    [| rewrite connect_no_token in H by (left; exact Ht); discriminate H].
  destruct (String.eqb_spec tok EmptyString) as [E | Hne].
  { subst tok. rewrite connect_no_token in H by (right; exact Ht). discriminate H. }
  destruct (backend (_session a) (PostConnect tok)) as [[st [data|]]|] eqn:Hr.
  - destruct (Z.leb_spec 400 st) as [Hst | Hst].
    { rewrite (connect_not_answered backend a tok Ht Hne) in H; [discriminate H|].
      rewrite Hr. left. exact Hst. }
    assert (Hd : (exists m, data = JObj m) \/ forall m, data <> JObj m).
    { destruct data; try (right; intros m0; discriminate). left. eexists. reflexivity. }
    destruct Hd as [[m Hd] | Hd].
    + subst data. exists tok, st, m.
      pose proof (connect_answered backend a tok st m Ht Hne Hr Hst) as C.
      cbv zeta in C. rewrite C in H. rewrite C. clear C.
      destruct (first_match m session_keys) as [v|]; simpl in *; [|discriminate H].
      destruct (truthy v) eqn:Tv; [|discriminate H].
      destruct (py_slice v); simpl in *; [|discriminate H].
      inversion H; subst v. repeat split; try assumption; reflexivity.
    + rewrite (connect_not_dict backend a tok st data Ht Hne Hr Hd) in H. discriminate H.
  - rewrite (connect_not_answered backend a tok Ht Hne) in H; [discriminate H|].
    rewrite Hr. right. reflexivity.
  - rewrite (connect_not_answered backend a tok Ht Hne) in H; [discriminate H|].
    rewrite Hr. exact I.
Qed.

(** C8. [connect] needs a stored refresh token and raises
    [SchluterAuthenticationError], sending nothing, when there is none. It
    reads the session identifier under [session], then [sessionId], then
    [session_id], the first key present deciding; it raises
    [SchluterAuthenticationError] when none of them is present, and on a
    transport error, a status of 400 or more or a body that is not JSON,
    and it raises nothing else. A returned identifier is the first match
    and is the stored session, and a first match that is a non-empty string
    is returned. *)
Theorem connect_establishes_session (backend : Backend) (a : SchluterAPI) :
  (_refresh_token a = None ->
     connect backend a = (Raise SchluterAuthenticationError, a)) /\
  (forall e, fst (connect backend a) = Raise e -> e = SchluterAuthenticationError) /\
  (forall sid, fst (connect backend a) = Ok sid ->
     _session_id (snd (connect backend a)) = sid /\
     exists tok st m,
       _refresh_token a = Some tok /\
       backend (_session a) (PostConnect tok) = Some (mkResponse st (Some (JObj m))) /\
       first_match m session_keys = Some sid) /\
  (forall tok, _refresh_token a = Some tok -> tok <> EmptyString ->
     ((backend (_session a) (PostConnect tok) = None \/
       exists resp, backend (_session a) (PostConnect tok) = Some resp /\
                    ((400 <= status resp)%Z \/ body resp = None)) ->
      fst (connect backend a) = Raise SchluterAuthenticationError) /\
     (forall st m,
        backend (_session a) (PostConnect tok) = Some (mkResponse st (Some (JObj m))) ->
        (st < 400)%Z ->
        (first_match m session_keys = None ->
           fst (connect backend a) = Raise SchluterAuthenticationError) /\
        (forall s, first_match m session_keys = Some (JStr s) -> s <> EmptyString ->
           fst (connect backend a) = Ok (JStr s) /\
           _session_id (snd (connect backend a)) = JStr s))).
Proof.
  split; [|split; [|split]].
  - intros H. apply connect_no_token. left. exact H.
  - intros e. apply connect_only_auth_error.
  - intros sid H.
    destruct (connect_success_inv backend a sid H)
      as [tok [st [m [Ht [_ [Hr [_ [Hf [_ Hs]]]]]]]]].
    split; [exact Hs|]. exists tok, st, m. repeat split; assumption.
  - intros tok Ht Hne. split.
    + intros Hr. rewrite (connect_not_answered backend a tok Ht Hne); [reflexivity|].
      destruct Hr as [Hr | [resp [Hr Hbad]]]; rewrite Hr; [exact I | exact Hbad].
    + intros st m Hr Hst.
      pose proof (connect_answered backend a tok st m Ht Hne Hr Hst) as C.
      cbv zeta in C. rewrite C. clear C. split.
      * intros Hf. rewrite Hf. reflexivity.
      * intros s Hf Hs. rewrite Hf. simpl.
        apply String.eqb_neq in Hs. rewrite Hs. simpl. split; reflexivity.
Qed.

Lemma connect_establishes_session_witness :
  fst (connect backend_two_keys api_logged_in) = Ok (JStr "A") /\
  _session_id (snd (connect backend_two_keys api_logged_in)) = JStr "A".
Proof.
  destruct (connect_establishes_session backend_two_keys api_logged_in)
    as [_ [_ [_ H]]].
  destruct (H "tok") as [_ H2].
  - reflexivity.
  - discriminate.
  - destruct (H2 200%Z [("session_id", JStr "B"); ("sessionId", JStr "A")]) as [_ H3].
    + reflexivity.
    + reflexivity.
    + apply H3; [reflexivity | discriminate].
Defined.

(** ** [logout] *)

Lemma connect_sends backend a tok :
  _refresh_token a = Some tok -> tok <> EmptyString ->
  _session (snd (connect backend a)) = (_session a ++ [PostConnect tok])%list.
Proof.
  intros Ht Hne. unfold connect. run. rewrite Ht.
  apply String.eqb_neq in Hne. rewrite Hne. simpl.
  unfold request.
  destruct (backend _ _) as [[st b]|]; simpl; [|reflexivity].
  unfold raise_for_status. simpl.
  destruct (400 <=? st)%Z; simpl; [reflexivity|].
  destruct b as [data|]; simpl; [|reflexivity].
  destruct data; simpl; try reflexivity.
  unfold dict_has.
  destruct (dict_get m "session") as [v1|];
    [| destruct (dict_get m "sessionId") as [v2|];
       [| destruct (dict_get m "session_id") as [v3|]; [|reflexivity] ] ];
    simpl;
    (destruct (truthy _); simpl; [|reflexivity]);
    (destruct (py_slice _) as [[]|e]; simpl; [reflexivity|]);
    destruct e; reflexivity.
Qed.

Lemma logout_runs a :
  logout a =
    (Ok true,
     if truthy (_session_id a) then set_access_token JNull (set_session_id JNull a)
     else a).
Proof. unfold logout. run. destruct (truthy (_session_id a)); reflexivity. Qed.

(** C9. [logout] returns true and leaves the refresh token, the user and
    account identifiers and the requests sent as they were; afterwards no
    session is established, and a session that was established has its
    identifier and the access token cleared. A later [connect] therefore
    posts the same refresh token. *)
Theorem logout_preserves_refresh_token (backend : Backend) (a : SchluterAPI) :
  let a' := snd (logout a) in
  fst (logout a) = Ok true /\
  _refresh_token a' = _refresh_token a /\
  _user_id a' = _user_id a /\
  _account_id a' = _account_id a /\
  _session a' = _session a /\
  truthy (_session_id a') = false /\
  (truthy (_session_id a) = true ->
     _session_id a' = JNull /\ _access_token a' = JNull) /\
  (forall tok, _refresh_token a = Some tok -> tok <> EmptyString ->
     _session (snd (connect backend a')) = (_session a ++ [PostConnect tok])%list).
Proof.
  intros a'.
  assert (Hf : _refresh_token a' = _refresh_token a /\ _session a' = _session a).
  { unfold a'. rewrite logout_runs. simpl.
    destruct (truthy (_session_id a)); split; reflexivity. }
  destruct Hf as [Ht Hs].
  repeat split; try assumption.
  - rewrite logout_runs. reflexivity.
  - unfold a'. rewrite logout_runs. simpl. destruct (truthy (_session_id a)); reflexivity.
  - unfold a'. rewrite logout_runs. simpl. destruct (truthy (_session_id a)); reflexivity.
  - unfold a'. rewrite logout_runs. simpl.
    destruct (truthy (_session_id a)) eqn:E; [reflexivity | exact E].
  - unfold a'. rewrite logout_runs. simpl. rewrite H. reflexivity.
  - unfold a'. rewrite logout_runs. simpl. rewrite H. reflexivity.
  - intros tok Htok Hne. rewrite <- Hs. apply connect_sends; [|exact Hne].
    rewrite Ht. exact Htok.
Qed.

Lemma logout_preserves_refresh_token_witness :
  _session_id (snd (logout (set_refresh_token "tok" api_sessioned))) = JNull /\
  _refresh_token (snd (logout (set_refresh_token "tok" api_sessioned))) = Some "tok".
Proof.
  destruct (logout_preserves_refresh_token backend_ok (set_refresh_token "tok" api_sessioned))
    as [_ [Ht [_ [_ [_ [_ [Hc _]]]]]]].
  split.
  - apply Hc. reflexivity.
  - exact Ht.
Defined.

(** * Properties of the coordinator *)

(** ** What each client call does to the client *)

Lemma headers_sessioned a :
  truthy (_session_id a) = true -> _get_headers a = Some (_session_id a).
Proof. intros H. unfold _get_headers. rewrite H. reflexivity. Qed.

Lemma get_thermostat_status_no_session backend id a :
  truthy (_session_id a) = false ->
  get_thermostat_status backend id a = (Raise SchluterAuthenticationError, a).
Proof. intros H. unfold get_thermostat_status. run. rewrite H. reflexivity. Qed.

Lemma get_thermostat_status_sessioned backend id a :
  truthy (_session_id a) = true ->
  snd (get_thermostat_status backend id a)
    = record_request (GetAttributes (Some (_session_id a)) id) a /\
  (fst (get_thermostat_status backend id a) = Raise SchluterAPIError \/
   exists st, fst (get_thermostat_status backend id a) = Ok st).
Proof.
  intros H. unfold get_thermostat_status. run. rewrite H. simpl.
  rewrite (headers_sessioned a H). unfold request.
  destruct (backend _ _) as [[st b]|]; simpl; [|split; [reflexivity | left; reflexivity]].
  unfold raise_for_status. simpl.
  destruct (400 <=? st)%Z; simpl; [split; [reflexivity | left; reflexivity]|].
  destruct b as [data|]; simpl; [|split; [reflexivity | left; reflexivity]].
  destruct (parse_thermostat id data) as [t|e]; simpl.
  - split; [reflexivity | right; eexists; reflexivity].
  - split; [reflexivity | left; reflexivity].
Qed.

(** A status call that the backend rejects, or does not answer, raises
    [SchluterAPIError]. *)
Lemma get_thermostat_status_rejected backend id a :
  truthy (_session_id a) = true ->
  match backend (_session a) (GetAttributes (Some (_session_id a)) id) with
  | None => True
  | Some resp => (400 <= status resp)%Z
  end ->
  get_thermostat_status backend id a
    = (Raise SchluterAPIError,
       record_request (GetAttributes (Some (_session_id a)) id) a).
Proof.
  intros H Hr. unfold get_thermostat_status. run. rewrite H. simpl.
  rewrite (headers_sessioned a H). unfold request.
  destruct (backend _ _) as [[st b]|]; simpl; [|reflexivity].
  unfold raise_for_status. simpl in *.
  apply Z.leb_le in Hr. rewrite Hr. reflexivity.
Qed.

Lemma get_devices_no_session backend loc a :
  truthy (_session_id a) = false ->
  get_devices backend loc a = (Raise SchluterAuthenticationError, a).
Proof. intros H. unfold get_devices. run. rewrite H. reflexivity. Qed.

Lemma get_devices_sessioned backend loc a :
  truthy (_session_id a) = true ->
  snd (get_devices backend loc a)
    = record_request (GetDevices (Some (_session_id a)) loc) a /\
  (fst (get_devices backend loc a) = Raise SchluterAPIError \/
   exists v, fst (get_devices backend loc a) = Ok v).
Proof.
  intros H. unfold get_devices. run. rewrite H. simpl.
  rewrite (headers_sessioned a H). unfold request.
  destruct (backend _ _) as [[st b]|]; simpl; [|split; [reflexivity | left; reflexivity]].
  unfold raise_for_status. simpl.
  destruct (400 <=? st)%Z; simpl; [split; [reflexivity | left; reflexivity]|].
  destruct b as [data|]; simpl; [|split; [reflexivity | left; reflexivity]].
  destruct (py_get data "devices" (JArr [])) as [t|e]; simpl.
  - split; [reflexivity | right; eexists; reflexivity].
  - split; [reflexivity | left; reflexivity].
Qed.

(** [get_devices] answered with a dict: the value under [devices], or the
    empty list. *)
Lemma get_devices_answered backend loc a st m :
  truthy (_session_id a) = true ->
  backend (_session a) (GetDevices (Some (_session_id a)) loc)
    = Some (mkResponse st (Some (JObj m))) ->
  (st < 400)%Z ->
  get_devices backend loc a
    = (Ok (match dict_get m "devices" with Some v => v | None => JArr [] end),
       record_request (GetDevices (Some (_session_id a)) loc) a).
Proof.
  intros H Hr Hst. unfold get_devices. run. rewrite H. simpl.
  rewrite (headers_sessioned a H). unfold request. rewrite Hr.
  unfold raise_for_status. simpl. apply Z.leb_gt in Hst. rewrite Hst. reflexivity.
Qed.

(** [get_devices] not answered with a dict. *)
Lemma get_devices_failed backend loc a :
  truthy (_session_id a) = true ->
  match backend (_session a) (GetDevices (Some (_session_id a)) loc) with
  | None => True
  | Some resp =>
      (400 <= status resp)%Z \/ body resp = None \/
      exists data, body resp = Some data /\ forall m, data <> JObj m
  end ->
  get_devices backend loc a
    = (Raise SchluterAPIError,
       record_request (GetDevices (Some (_session_id a)) loc) a).
Proof.
  intros H Hr. unfold get_devices. run. rewrite H. simpl.
  rewrite (headers_sessioned a H). unfold request.
  destruct (backend _ _) as [[st b]|]; simpl in *; [|reflexivity].
  unfold raise_for_status. simpl.
  destruct (400 <=? st)%Z eqn:E; simpl; [reflexivity|].
  destruct Hr as [Hr | [Hr | [data [Hb Hd]]]].
  - apply Z.leb_gt in E. lia.
  - rewrite Hr. reflexivity.
  - rewrite Hb. simpl. destruct data; try reflexivity.
    exfalso. apply (Hd m). reflexivity.
Qed.

(** [login] sends one request and raises nothing but
    [SchluterAuthenticationError]. *)
Lemma login_sends backend tok a :
  _session (snd (login backend tok a)) = (_session a ++ [PostLogin tok])%list /\
  (fst (login backend tok a) = Raise SchluterAuthenticationError \/
   exists data, fst (login backend tok a) = Ok data).
Proof.
  unfold login. run. unfold request.
  destruct (backend _ _) as [[st b]|]; simpl; [|split; [reflexivity | left; reflexivity]].
  unfold raise_for_status. simpl.
  destruct (400 <=? st)%Z; simpl; [split; [reflexivity | left; reflexivity]|].
  destruct b as [data|]; simpl; [|split; [reflexivity | left; reflexivity]].
  destruct data; simpl; try (split; [reflexivity | left; reflexivity]).
  destruct (dict_has m "session"); simpl.
  - unfold dict_has.
    destruct (dict_get m "session") as [sid|]; simpl;
      [|split; [reflexivity | left; reflexivity]].
    destruct (py_slice sid) as [[]|e]; simpl;
      [|split; [reflexivity | left; reflexivity]].
    destruct (dict_get m "user") as [user|]; simpl;
      [|split; [reflexivity | right; eexists; reflexivity]].
    destruct user; simpl; try (split; [reflexivity | left; reflexivity]).
    destruct (truthy _); simpl; [split; [reflexivity | right; eexists; reflexivity]|].
    destruct (dict_get m "account") as [acc|]; simpl;
      [|split; [reflexivity | right; eexists; reflexivity]].
    destruct acc; simpl; try (split; [reflexivity | left; reflexivity]).
    split; [reflexivity | right; eexists; reflexivity].
  - unfold dict_has.
    destruct (dict_get m "user") as [user|]; simpl;
      [|split; [reflexivity | right; eexists; reflexivity]].
    destruct user; simpl; try (split; [reflexivity | left; reflexivity]).
    destruct (truthy _); simpl; [split; [reflexivity | right; eexists; reflexivity]|].
    destruct (dict_get m "account") as [acc|]; simpl;
      [|split; [reflexivity | right; eexists; reflexivity]].
    destruct acc; simpl; try (split; [reflexivity | left; reflexivity]).
    split; [reflexivity | right; eexists; reflexivity].
Qed.

(** ** Dict keys *)

Lemma Qeq_bool_sym (p q : Q) : Qeq_bool p q = Qeq_bool q p.
Proof.
  destruct (Qeq_bool p q) eqn:E1, (Qeq_bool q p) eqn:E2; try reflexivity.
  - apply Qeq_bool_iff in E1. symmetry in E1. apply Qeq_bool_iff in E1. congruence.
  - apply Qeq_bool_iff in E2. symmetry in E2. apply Qeq_bool_iff in E2. congruence.
Qed.

Lemma key_eqb_sym (a b : json) : key_eqb a b = key_eqb b a.
Proof.
  destruct a, b; simpl; try reflexivity;
    try apply Qeq_bool_sym; apply String.eqb_sym.
Qed.

Lemma key_eqb_refl (k : json) : hashable k = true -> key_eqb k k = true.
Proof.
  destruct k; simpl; intros H; try discriminate H; try reflexivity.
  - apply Qeq_bool_iff. reflexivity.
  - apply Qeq_bool_iff. reflexivity.
  - apply String.eqb_refl.
Qed.

Lemma dict_set_fresh {V} (d : pydict V) k v :
  Forall (fun k' => key_eqb k' k = false) (keys d) ->
  dict_set d k v = (d ++ [(k, v)])%list.
Proof.
  induction d as [|[k' v'] d IH]; simpl; intros H; [reflexivity|].
  inversion H; subst. simpl in *. rewrite H2. rewrite IH by assumption. reflexivity.
Qed.

Lemma keys_app {V} (d1 d2 : pydict V) : keys (d1 ++ d2) = (keys d1 ++ keys d2)%list.
Proof. unfold keys. apply map_app. Qed.

Lemma distinct_keys_snoc l k :
  distinct_keys l -> key_eqb k k = true ->
  Forall (fun k' => key_eqb k' k = false) l ->
  distinct_keys (l ++ [k]).
Proof.
  induction 1 as [|k0 l Hk0 Hl Hd IH]; simpl; intros Hk Hf.
  - constructor; [assumption | constructor | constructor].
  - inversion Hf; subst. constructor.
    + assumption.
    + apply Forall_app. split; [assumption|]. constructor; [assumption | constructor].
    + apply IH; assumption.
Qed.

Lemma dict_set_wf d k m :
  directory_wf d -> hashable k = true -> directory_wf (dict_set d k (JObj m)).
Proof.
  intros [Hd Hv] Hk. induction d as [|[k' v'] d IH]; simpl.
  - split; simpl.
    + constructor; [apply key_eqb_refl; assumption | constructor | constructor].
    + constructor; [eexists; reflexivity | constructor].
  - simpl in Hd. inversion Hd; subst. inversion Hv; subst.
    destruct (key_eqb k' k) eqn:E.
    + split; simpl.
      * constructor; assumption.
      * constructor; [eexists; reflexivity | assumption].
    + destruct (IH H3 H5) as [IH1 IH2]. split; simpl.
      * constructor; [assumption | | assumption].
        clear - H2 E. induction d as [|[k1 v1] d IHd]; simpl in *.
        -- constructor; [assumption | constructor].
        -- inversion H2; subst. destruct (key_eqb k1 k).
           ++ constructor; assumption.
           ++ constructor; [assumption | apply IHd; assumption].
      * constructor; assumption.
Qed.

(** Looking a key of the directory up finds its own device. *)
Lemma dict_index_wf d id :
  directory_wf d -> In id (keys d) ->
  exists m, dict_index d id = Ok (JObj m).
Proof.
  intros [Hd Hv]. induction d as [|[k v] d IH]; simpl; intros Hin; [contradiction|].
  simpl in Hd. inversion Hd; subst. inversion Hv; subst. destruct Hin as [E | Hin].
  - subst id. rewrite H1. destruct H4 as [m Hm]. simpl in Hm. subst v.
    eexists. reflexivity.
  - rewrite Forall_forall in H2. rewrite (H2 id Hin). apply IH; assumption.
Qed.

(** ** Requests added to the HTTP session *)

Lemma sent_more_nil a : sent_more [] a = a.
Proof. destruct a. unfold sent_more. simpl. rewrite app_nil_r. reflexivity. Qed.

Lemma sent_more_app new1 new2 a :
  sent_more new2 (sent_more new1 a) = sent_more (new1 ++ new2) a.
Proof. unfold sent_more. simpl. rewrite app_assoc. reflexivity. Qed.

Lemma record_request_sent_more r a : record_request r a = sent_more [r] a.
Proof. reflexivity. Qed.

Lemma set_api_same c : set_api (api c) c = c.
Proof. destruct c. reflexivity. Qed.

Lemma set_api_twice a1 a2 c : set_api a2 (set_api a1 c) = set_api a2 c.
Proof. reflexivity. Qed.

(** ** The status loop *)

Lemma dict_index_raises {V} (d : pydict V) k e :
  dict_index d k = Raise e -> e = PyError.
Proof.
  induction d as [|[k' v] d IH]; simpl.
  - intros H. inversion H. reflexivity.
  - destruct (key_eqb k' k); [discriminate | exact IH].
Qed.

Lemma device_name_raises dev id e : device_name dev id = Raise e -> e = PyError.
Proof. destruct dev; simpl; intros H; inversion H; reflexivity. Qed.

(** One turn of the loop, by the outcome of the status call. *)
Lemma poll_devices_cons backend id rest data c :
  poll_devices backend (id :: rest) data c =
    match get_thermostat_status backend id (api c) with
    | (Ok st, a') =>
        match dict_index (devices c) id with
        | Ok dev =>
            match device_name dev id with
            | Ok nm =>
                poll_devices backend rest (dict_set data id (set_name nm st)) (set_api a' c)
            | Raise _ => (Raise PyError, set_api a' c)
            end
        | Raise _ => (Raise PyError, set_api a' c)
        end
    | (Raise SchluterAPIError, a') => poll_devices backend rest data (set_api a' c)
    | (Raise e, a') => (Raise e, set_api a' c)
    end.
Proof.
  simpl. unfold bind at 1. unfold try_except, bind, on_api.
  destruct (get_thermostat_status backend id (api c)) as [[st|e] a']; simpl.
  - unfold get, lift_result. simpl.
    destruct (dict_index (devices c) id) as [dev|e] eqn:Ed; simpl.
    + destruct (device_name dev id) as [nm|e] eqn:En; simpl; [reflexivity|].
      apply device_name_raises in En. subst e. reflexivity.
    + apply dict_index_raises in Ed. subst e. reflexivity.
  - destruct e; reflexivity.
Qed.

(** Whatever the devices and the backend, the loop only adds status
    requests and touches nothing but the HTTP session; with a session it
    raises no authentication error, and without one it raises it at the
    first device, before any request. *)
Lemma poll_devices_frame backend ids :
  forall data c,
  exists new,
    snd (poll_devices backend ids data c) = set_api (sent_more new (api c)) c /\
    Forall (fun r => is_login r = false /\ is_get_devices r = false) new /\
    (truthy (_session_id (api c)) = true ->
       fst (poll_devices backend ids data c) <> Raise SchluterAuthenticationError) /\
    (truthy (_session_id (api c)) = false -> ids <> [] ->
       poll_devices backend ids data c = (Raise SchluterAuthenticationError, c)).
Proof.
  induction ids as [|id rest IH]; intros data c.
  - exists []. simpl. rewrite sent_more_nil, set_api_same.
    repeat split; try constructor; try discriminate. intros _ H. congruence.
  - rewrite poll_devices_cons.
    destruct (truthy (_session_id (api c))) eqn:Hs.
    + destruct (get_thermostat_status_sessioned backend id (api c) Hs) as [Hsnd Hfst].
      destruct (get_thermostat_status backend id (api c)) as [r a'] eqn:G.
      simpl in Hsnd, Hfst. subst a'.
      set (q := GetAttributes (Some (_session_id (api c))) id) in *.
      assert (Hq : is_login q = false /\ is_get_devices q = false) by (split; reflexivity).
      assert (Step : forall data',
        exists new,
          snd (poll_devices backend rest data' (set_api (record_request q (api c)) c))
            = set_api (sent_more new (api c)) c /\
          Forall (fun r => is_login r = false /\ is_get_devices r = false) new /\
          fst (poll_devices backend rest data' (set_api (record_request q (api c)) c))
            <> Raise SchluterAuthenticationError).
      { intros data'.
        destruct (IH data' (set_api (record_request q (api c)) c))
          as [new [H1 [H2 [H3 _]]]].
        exists (q :: new). simpl in H1. rewrite H1.
        rewrite record_request_sent_more, sent_more_app. simpl.
        repeat split; [constructor; assumption | apply H3; exact Hs]. }
      assert (Stop : forall e, e <> SchluterAuthenticationError ->
        exists new,
          snd (Raise (A := pydict SchluterThermostat) e,
               set_api (record_request q (api c)) c)
            = set_api (sent_more new (api c)) c /\
          Forall (fun r => is_login r = false /\ is_get_devices r = false) new /\
          Raise (A := pydict SchluterThermostat) e <> Raise SchluterAuthenticationError).
      { intros e He. exists [q]. repeat split.
        - constructor; [assumption | constructor].
        - intros C. inversion C. contradiction. }
      destruct Hfst as [Hr | [st Hr]]; subst r.
      * destruct (Step data) as [new [H1 [H2 H3]]]. exists new.
        split; [exact H1 | split; [exact H2 | split; [intros _; exact H3 | discriminate]]].
      * destruct (dict_index (devices c) id) as [dev|e].
        -- destruct (device_name dev id) as [nm|e].
           ++ destruct (Step (dict_set data id (set_name nm st))) as [new [H1 [H2 H3]]].
              exists new.
              split; [exact H1 | split; [exact H2 | split; [intros _; exact H3 | discriminate]]].
           ++ destruct (Stop PyError) as [new [H1 [H2 H3]]]; [discriminate|].
              exists new.
              split; [exact H1 | split; [exact H2 | split; [intros _; exact H3 | discriminate]]].
        -- destruct (Stop PyError) as [new [H1 [H2 H3]]]; [discriminate|].
           exists new.
           split; [exact H1 | split; [exact H2 | split; [intros _; exact H3 | discriminate]]].
    + rewrite (get_thermostat_status_no_session backend id (api c) Hs).
      exists []. rewrite sent_more_nil, set_api_same. simpl.
      split; [reflexivity | split; [constructor | split; [discriminate | reflexivity]]].
Qed.

Lemma failing_incl backend ids : forall a id, In id (failing backend a ids) -> In id ids.
Proof.
  induction ids as [|id0 rest IH]; simpl; intros a id H; [exact H|].
  destruct (get_thermostat_status backend id0 a) as [[st|e] a'].
  - right. apply (IH a'). exact H.
  - destruct e; try (right; apply (IH a'); exact H).
    destruct H as [H | H]; [left; exact H | right; apply (IH a'); exact H].
Qed.

Lemma existsb_none (k : json) (l : list json) :
  Forall (fun k' => key_eqb k k' = false) l -> existsb (key_eqb k) l = false.
Proof.
  induction 1 as [|k' l Hk Hl IH]; simpl; [reflexivity|]. rewrite Hk. exact IH.
Qed.

(** With a session and a well-formed directory the loop asks every device
    once, in order, and keeps the devices whose call did not fail. *)
Lemma poll_devices_keys backend ids :
  forall data c,
  truthy (_session_id (api c)) = true ->
  (forall id, In id ids -> exists m, dict_index (devices c) id = Ok (JObj m)) ->
  distinct_keys ids ->
  Forall (fun k => Forall (fun id => key_eqb k id = false) ids) (keys data) ->
  exists data',
    poll_devices backend ids data c =
      (Ok data',
       set_api (sent_more (map (GetAttributes (Some (_session_id (api c)))) ids) (api c)) c) /\
    keys data' =
      keys data ++
      filter (fun id => negb (existsb (key_eqb id) (failing backend (api c) ids))) ids.
Proof.
  induction ids as [|id rest IH]; intros data c Hs Hidx Hd Hfresh.
  - exists data. simpl. rewrite sent_more_nil, set_api_same, app_nil_r. split; reflexivity.
  - inversion Hd as [|k l Hrefl Hlater Hd']; subst k l.
    rewrite poll_devices_cons. simpl failing.
    destruct (get_thermostat_status_sessioned backend id (api c) Hs) as [Hsnd Hfst].
    destruct (get_thermostat_status backend id (api c)) as [r a'] eqn:G.
    simpl in Hsnd, Hfst. subst a'.
    set (q := GetAttributes (Some (_session_id (api c))) id) in *.
    set (c1 := set_api (record_request q (api c)) c).
    assert (Hfresh' : Forall (fun k => Forall (fun id0 => key_eqb k id0 = false) rest)
                             (keys data)).
    { eapply Forall_impl; [|exact Hfresh]. intros k Hk. inversion Hk; assumption. }
    assert (Hhead : Forall (fun k => key_eqb k id = false) (keys data)).
    { eapply Forall_impl; [|exact Hfresh]. intros k Hk. inversion Hk; assumption. }
    assert (Hidx' : forall id0, In id0 rest ->
                      exists m, dict_index (devices c1) id0 = Ok (JObj m)).
    { intros id0 Hin. apply Hidx. right. exact Hin. }
    destruct Hfst as [Hr | [st Hr]]; subst r.
    + destruct (IH data c1 Hs Hidx' Hd' Hfresh') as [data' [Hrun Hkeys]].
      exists data'. split.
      * rewrite Hrun. unfold c1. simpl.
        rewrite record_request_sent_more, sent_more_app. reflexivity.
      * rewrite Hkeys. simpl. rewrite Hrefl. simpl. f_equal.
        apply filter_ext_in. intros id0 Hin.
        rewrite Forall_forall in Hlater.
        rewrite key_eqb_sym, (Hlater id0 Hin). reflexivity.
    + destruct (Hidx id (or_introl eq_refl)) as [m Hm]. rewrite Hm. simpl.
      set (st' := set_name _ st).
      rewrite (dict_set_fresh data id st' Hhead).
      assert (Hfresh1 : Forall (fun k => Forall (fun id0 => key_eqb k id0 = false) rest)
                               (keys (data ++ [(id, st')]))).
      { rewrite keys_app. apply Forall_app. split; [exact Hfresh'|].
        constructor; [exact Hlater | constructor]. }
      destruct (IH (data ++ [(id, st')]) c1 Hs Hidx' Hd' Hfresh1) as [data' [Hrun Hkeys]].
      exists data'. split.
      * rewrite Hrun. unfold c1. simpl.
        rewrite record_request_sent_more, sent_more_app. reflexivity.
      * rewrite Hkeys, keys_app. simpl. rewrite <- app_assoc. simpl.
        assert (E : existsb (key_eqb id) (failing backend (record_request q (api c)) rest)
                    = false).
        { apply existsb_none. apply Forall_forall. intros f Hf.
          rewrite Forall_forall in Hlater. apply Hlater.
          apply (failing_incl backend rest _ f Hf). }
        rewrite E. reflexivity.
Qed.

(** ** Discovery *)

Lemma set_devices_same c : set_devices (devices c) c = c.
Proof. destruct c. reflexivity. Qed.

Lemma py_index_object device k v : py_index device k = Ok v -> exists m, device = JObj m.
Proof. destruct device; simpl; try discriminate. intros _. eexists. reflexivity. Qed.

Lemma py_index_raises device k e : py_index device k = Raise e -> e = PyError.
Proof.
  destruct device; simpl; intros H; try (inversion H; reflexivity).
  destruct (dict_get m k); inversion H; reflexivity.
Qed.

Lemma store_devices_cons device rest c :
  store_devices (device :: rest) c =
    match py_index device "id" with
    | Ok id =>
        if hashable id
        then store_devices rest (set_devices (dict_set (devices c) id device) c)
        else (Raise PyError, c)
    | Raise e => (Raise e, c)
    end.
Proof.
  simpl. unfold bind, lift_result, modify, raise.
  destruct (py_index device "id") as [id|e]; [|reflexivity].
  destruct (hashable id); reflexivity.
Qed.

(** Storing the devices changes the directory only, keeps it well formed,
    and can only fail on a record it cannot index. *)
Lemma store_devices_frame device_list :
  forall c,
  exists d,
    snd (store_devices device_list c) = set_devices d c /\
    (fst (store_devices device_list c) = Ok tt \/
     fst (store_devices device_list c) = Raise PyError) /\
    (directory_wf (devices c) -> directory_wf d).
Proof.
  induction device_list as [|device rest IH]; intros c.
  - exists (devices c). simpl. rewrite set_devices_same.
    split; [reflexivity | split; [left; reflexivity | tauto]].
  - rewrite store_devices_cons.
    destruct (py_index device "id") as [id|e] eqn:Ei.
    + destruct (hashable id) eqn:Hh.
      * destruct (IH (set_devices (dict_set (devices c) id device) c))
          as [d [H1 [H2 H3]]].
        exists d. split; [exact H1 | split; [exact H2|]].
        intros Hwf. apply H3. simpl.
        destruct (py_index_object device "id" id Ei) as [m Hm]. subst device.
        apply dict_set_wf; assumption.
      * exists (devices c). simpl. rewrite set_devices_same.
        split; [reflexivity | split; [right; reflexivity | tauto]].
    + exists (devices c). simpl. rewrite set_devices_same.
      apply py_index_raises in Ei. subst e.
      split; [reflexivity | split; [right; reflexivity | tauto]].
Qed.

(** When every record can be indexed, all of them are stored. *)
Lemma store_devices_indexable device_list :
  forall c,
  Forall indexable device_list ->
  store_devices device_list c =
    (Ok tt, set_devices (index_into (devices c) device_list) c).
Proof.
  induction device_list as [|device rest IH]; intros c H.
  - simpl. rewrite set_devices_same. reflexivity.
  - inversion H as [|x l [id [Ei Hh]] Hrest]; subst x l.
    rewrite store_devices_cons, Ei, Hh.
    rewrite (IH _ Hrest). unfold index_into. simpl. rewrite Ei. reflexivity.
Qed.

Lemma discover_known backend c :
  devices c <> [] -> discover backend c = (Ok tt, c).
Proof.
  intros H. unfold discover. run. destruct (devices c); [congruence | reflexivity].
Qed.

Lemma discover_empty backend c :
  devices c = [] ->
  discover backend c =
    match get_devices backend (location_id c) (api c) with
    | (Ok device_list, a') =>
        match py_iter device_list with
        | Ok items => store_devices items (set_api a' c)
        | Raise e => (Raise e, set_api a' c)
        end
    | (Raise e, a') => (Raise e, set_api a' c)
    end.
Proof.
  intros H. unfold discover. run. rewrite H. unfold on_api.
  destruct (get_devices backend (location_id c) (api c)) as [[v|e] a']; simpl;
    [|reflexivity].
  destruct (py_iter v); reflexivity.
Qed.

Lemma py_iter_raises v e : py_iter v = Raise e -> e = PyError.
Proof. destruct v; simpl; intros H; inversion H; reflexivity. Qed.

(** With a session, discovery sends the device request when the directory
    is empty and nothing otherwise; it changes only the HTTP session and
    the directory, and raises no authentication error. *)
Lemma discover_frame backend c :
  truthy (_session_id (api c)) = true ->
  exists new d,
    snd (discover backend c) = set_devices d (set_api (sent_more new (api c)) c) /\
    fst (discover backend c) <> Raise SchluterAuthenticationError /\
    (directory_wf (devices c) -> directory_wf d) /\
    (devices c <> [] -> new = [] /\ d = devices c /\ fst (discover backend c) = Ok tt) /\
    (devices c = [] ->
       new = [GetDevices (Some (_session_id (api c))) (location_id c)]).
Proof.
  intros Hs. destruct (devices c) as [|kv d0] eqn:Hd.
  - rewrite (discover_empty backend c Hd).
    destruct (get_devices_sessioned backend (location_id c) (api c) Hs) as [Hsnd Hfst].
    destruct (get_devices backend (location_id c) (api c)) as [r a'].
    simpl in Hsnd, Hfst. subst a'.
    set (q := GetDevices (Some (_session_id (api c))) (location_id c)).
    exists [q].
    destruct Hfst as [Hr | [v Hr]]; subst r.
    + exists []. simpl. rewrite <- Hd at 1. 
      split; [reflexivity | split; [discriminate | split; [tauto|]]].
      split; [congruence | reflexivity].
    + destruct (py_iter v) as [items|e] eqn:Ev.
      * destruct (store_devices_frame items (set_api (record_request q (api c)) c))
          as [d [H1 [H2 H3]]].
        exists d. rewrite H1.
        split; [reflexivity|].
        split; [destruct H2 as [H2 | H2]; rewrite H2; discriminate|].
        split; [intros _; apply H3; simpl; rewrite Hd; split; constructor|].
        split; [congruence | reflexivity].
      * exists []. apply py_iter_raises in Ev. subst e. simpl. rewrite <- Hd at 1.
        split; [reflexivity | split; [discriminate | split; [tauto|]]].
        split; [congruence | reflexivity].
  - assert (Hne : devices c <> []) by (rewrite Hd; discriminate).
    rewrite (discover_known backend c Hne). exists [], (devices c). simpl.
    rewrite sent_more_nil, set_api_same, set_devices_same, Hd.
    split; [reflexivity | split; [discriminate | split; [tauto|]]].
    split; [intros _; repeat split | discriminate].
Qed.

(** ** One cycle *)

Lemma update_body_eq backend c :
  update_body backend c =
    match discover backend c with
    | (Ok _, c1) => poll_devices backend (keys (devices c1)) [] c1
    | (Raise e, c1) => (Raise e, c1)
    end.
Proof.
  unfold update_body, bind, get.
  destruct (discover backend c) as [[u|e] c1]; reflexivity.
Qed.

Lemma async_update_data_eq backend depth c :
  _async_update_data backend (S depth) c =
    match update_body backend c with
    | (Ok data, c1) => (Ok data, c1)
    | (Raise SchluterAuthenticationError, c1) => relogin_and_retry backend depth c1
    | (Raise _, c1) => (Raise (UpdateFailed ErrorCommunicating), c1)
    end.
Proof.
  simpl. unfold try_except at 1.
  destruct (update_body backend c) as [[data|e] c1]; [reflexivity|].
  destruct e; try reflexivity.
  unfold relogin_and_retry, try_except, bind, get, on_api, modify, raise.
  destruct (login backend (refresh_token c1) (api c1)) as [[j|e] a2]; simpl.
  - destruct (_async_update_data backend depth (set_api a2 c1)) as [[data|e] c3];
      [reflexivity|]. destruct e; reflexivity.
  - destruct e; reflexivity.
Qed.

(** C2. With a session, let D be the devices known once discovery has run
    and F those whose status call fails with [SchluterAPIError] in the
    cycle. The cycle returns a poll result whose keys are D without F, in
    the order of D: a failing device is absent, the cycle goes on, and every
    device of D is asked exactly once. *)
Theorem poll_result_keys
  (backend : Backend) (depth : nat) (c c1 : SchluterDataUpdateCoordinator) :
  truthy (_session_id (api c)) = true ->
  directory_wf (devices c) ->
  discover backend c = (Ok tt, c1) ->
  let D := keys (devices c1) in
  let F := failing backend (api c1) D in
  exists data,
    _async_update_data backend (S depth) c =
      (Ok data,
       set_api (sent_more (map (GetAttributes (Some (_session_id (api c1)))) D) (api c1)) c1) /\
    keys data = filter (fun id => negb (existsb (key_eqb id) F)) D /\
    (forall id, In id F -> In id D).
Proof.
  intros Hs Hwf Hdisc D F.
  destruct (discover_frame backend c Hs) as [new [d [Hsnd [_ [Hwf' _]]]]].
  rewrite Hdisc in Hsnd. simpl in Hsnd.
  assert (Hs1 : truthy (_session_id (api c1)) = true) by (rewrite Hsnd; exact Hs).
  assert (Hwf1 : directory_wf (devices c1)) by (rewrite Hsnd; simpl; apply Hwf'; exact Hwf).
  destruct (poll_devices_keys backend D [] c1 Hs1) as [data [Hrun Hkeys]].
  - intros id Hin. apply dict_index_wf; assumption.
  - apply Hwf1.
  - constructor.
  - exists data. rewrite async_update_data_eq, update_body_eq, Hdisc. fold D.
    rewrite Hrun. split; [reflexivity|]. split; [exact Hkeys|].
    intros id. apply failing_incl.
Qed.

Lemma poll_result_keys_witness :
  exists data,
    fst (_async_update_data backend_one_fails 1 coordinator_sessioned) = Ok data /\
    keys data = [JNum 1; JNum 3].
Proof.
  destruct (poll_result_keys backend_one_fails 0 coordinator_sessioned
              (snd (discover backend_one_fails coordinator_sessioned)))
    as [data [Hrun [Hkeys _]]].
  - reflexivity.
  - split; constructor.
  - reflexivity.
  - exists data. split; [rewrite Hrun; reflexivity | exact Hkeys].
Defined.

Lemma filter_no_discovery (l new : list Request) :
  Forall (fun r => is_get_devices r = false) new ->
  filter is_get_devices (l ++ new) = filter is_get_devices l.
Proof.
  intros H. rewrite filter_app.
  assert (E : filter is_get_devices new = []).
  { induction H as [|r new Hr Hn IH]; simpl; [reflexivity|]. rewrite Hr. exact IH. }
  rewrite E. apply app_nil_r.
Qed.

Lemma logins_no_login (l new : list Request) :
  Forall (fun r => is_login r = false) new ->
  logins (l ++ new) = logins l.
Proof.
  intros H. unfold logins. rewrite filter_app.
  assert (E : filter is_login new = []).
  { induction H as [|r new Hr Hn IH]; simpl; [reflexivity|]. rewrite Hr. exact IH. }
  rewrite E, app_nil_r. reflexivity.
Qed.

(** With a session the body of the cycle raises no authentication error
    and sends no login; it fetches the device list first when the directory
    is empty and not at all otherwise. *)
Lemma update_body_frame backend c :
  truthy (_session_id (api c)) = true ->
  exists new d,
    snd (update_body backend c) = set_devices d (set_api (sent_more new (api c)) c) /\
    fst (update_body backend c) <> Raise SchluterAuthenticationError /\
    Forall (fun r => is_login r = false) new /\
    (devices c <> [] -> d = devices c /\ Forall (fun r => is_get_devices r = false) new) /\
    (devices c = [] ->
       exists rest,
         new = GetDevices (Some (_session_id (api c))) (location_id c) :: rest).
Proof.
  intros Hs. rewrite update_body_eq.
  destruct (discover_frame backend c Hs) as [new [d [Hsnd [Hfst [_ [Hknown Hempty]]]]]].
  destruct (discover backend c) as [[u|e] c1]; simpl in Hsnd, Hfst.
  - assert (Hs1 : truthy (_session_id (api c1)) = true) by (rewrite Hsnd; exact Hs).
    destruct (poll_devices_frame backend (keys (devices c1)) [] c1)
      as [new2 [Hsnd2 [Hnew2 [Hauth2 _]]]].
    exists (new ++ new2), d. rewrite Hsnd2.
    split; [rewrite Hsnd; simpl; rewrite sent_more_app; reflexivity|].
    split; [apply Hauth2; exact Hs1|].
    assert (Hl2 : Forall (fun r => is_login r = false) new2).
    { eapply Forall_impl; [|exact Hnew2]. intros r [H _]. exact H. }
    assert (Hg2 : Forall (fun r => is_get_devices r = false) new2).
    { eapply Forall_impl; [|exact Hnew2]. intros r [_ H]. exact H. }
    destruct (devices c) as [|kv d0] eqn:Hd.
    + rewrite (Hempty eq_refl). simpl.
      split; [constructor; [reflexivity | exact Hl2]|].
      split; [congruence | intros _; eexists; reflexivity].
    + destruct Hknown as [Hn [Hdd _]]; [discriminate|]. subst new. simpl.
      split; [exact Hl2|]. split; [intros _; split; assumption | discriminate].
  - exists new, d.
    split; [exact Hsnd|].
    split; [simpl; intros C; apply Hfst; inversion C; reflexivity|].
    destruct (devices c) as [|kv d0] eqn:Hd.
    + rewrite (Hempty eq_refl).
      split; [constructor; [reflexivity | constructor]|].
      split; [congruence | intros _; eexists; reflexivity].
    + destruct Hknown as [_ [_ Hok]]; [discriminate | discriminate Hok].
Qed.

(** Without a session the body raises [SchluterAuthenticationError] before
    any request. *)
Lemma update_body_no_session backend c :
  truthy (_session_id (api c)) = false ->
  update_body backend c = (Raise SchluterAuthenticationError, c).
Proof.
  intros Hs. rewrite update_body_eq. destruct (devices c) as [|kv d0] eqn:Hd.
  - rewrite (discover_empty backend c Hd).
    rewrite (get_devices_no_session backend (location_id c) (api c) Hs).
    rewrite set_api_same. reflexivity.
  - assert (Hne : devices c <> []) by (rewrite Hd; discriminate).
    rewrite (discover_known backend c Hne).
    destruct (poll_devices_frame backend (keys (devices c)) [] c) as [_ [_ [_ [_ H]]]].
    apply H; [exact Hs | rewrite Hd; discriminate].
Qed.

(** With a session a cycle is its body, a failure being reported as an
    update failure. *)
Lemma async_update_data_sessioned backend depth c :
  truthy (_session_id (api c)) = true ->
  _async_update_data backend (S depth) c =
    (match fst (update_body backend c) with
     | Ok data => Ok data
     | Raise _ => Raise (UpdateFailed ErrorCommunicating)
     end,
     snd (update_body backend c)).
Proof.
  intros Hs. rewrite async_update_data_eq.
  destruct (update_body_frame backend c Hs) as [_ [_ [_ [Hfst _]]]].
  destruct (update_body backend c) as [[data|e] c1]; simpl in *; [reflexivity|].
  destruct e; try reflexivity. congruence.
Qed.

Lemma async_update_data_no_session backend depth c :
  truthy (_session_id (api c)) = false ->
  _async_update_data backend (S depth) c = relogin_and_retry backend depth c.
Proof.
  intros Hs. rewrite async_update_data_eq, (update_body_no_session backend c Hs).
  reflexivity.
Qed.

(** ** Discovery over cycles *)

(** A cycle that starts with a known device leaves the directory as it is
    and sends no device-list request, at any depth and with or without a
    session. *)
Lemma known_directory_not_fetched backend depth :
  forall c,
  devices c <> [] ->
  devices (snd (_async_update_data backend depth c)) = devices c /\
  filter is_get_devices (_session (api (snd (_async_update_data backend depth c))))
    = filter is_get_devices (_session (api c)).
Proof.
  induction depth as [|depth IH]; intros c Hne; [split; reflexivity|].
  destruct (truthy (_session_id (api c))) eqn:Hs.
  - rewrite (async_update_data_sessioned backend depth c Hs). simpl.
    destruct (update_body_frame backend c Hs) as [new [d [Hsnd [_ [_ [Hknown _]]]]]].
    destruct (Hknown Hne) as [Hd Hnew]. rewrite Hsnd. simpl.
    split; [exact Hd | apply filter_no_discovery; exact Hnew].
  - rewrite (async_update_data_no_session backend depth c Hs).
    unfold relogin_and_retry.
    destruct (login_sends backend (refresh_token c) (api c)) as [Hsent _].
    destruct (login backend (refresh_token c) (api c)) as [[j|e] a2]; simpl in Hsent.
    + destruct (IH (set_api a2 c) Hne) as [Hd Hf]. simpl in Hd, Hf.
      rewrite Hsent in Hf.
      rewrite (filter_no_discovery (_session (api c)) [PostLogin (refresh_token c)]) in Hf
        by (constructor; [reflexivity | constructor]).
      destruct (_async_update_data backend depth (set_api a2 c)) as [[data|e] c3];
        simpl in *; [split; assumption|].
      destruct e; simpl; split; assumption.
    + assert (Hf : filter is_get_devices (_session a2)
                   = filter is_get_devices (_session (api c))).
      { rewrite Hsent. apply filter_no_discovery. constructor; [reflexivity | constructor]. }
      destruct e; simpl; split; try reflexivity; exact Hf.
Qed.

(** With a session and an empty directory a cycle starts by fetching the
    device list. *)
Lemma empty_directory_fetched backend depth c :
  devices c = [] ->
  truthy (_session_id (api c)) = true ->
  exists rest,
    _session (api (snd (_async_update_data backend (S depth) c)))
      = _session (api c) ++ GetDevices (Some (_session_id (api c))) (location_id c) :: rest.
Proof.
  intros Hd Hs. rewrite (async_update_data_sessioned backend depth c Hs). simpl.
  destruct (update_body_frame backend c Hs) as [new [d [Hsnd [_ [_ [_ Hempty]]]]]].
  destruct (Hempty Hd) as [rest Hnew]. exists rest. rewrite Hsnd, Hnew. reflexivity.
Qed.

(** A device list of indexable records is stored whole, indexed by id. *)
Lemma discovery_indexes backend depth c st m l :
  devices c = [] ->
  truthy (_session_id (api c)) = true ->
  backend (_session (api c)) (GetDevices (Some (_session_id (api c))) (location_id c))
    = Some (mkResponse st (Some (JObj m))) ->
  (st < 400)%Z ->
  dict_get m "devices" = Some (JArr l) ->
  Forall indexable l ->
  devices (snd (_async_update_data backend (S depth) c)) = index_by_id l.
Proof.
  intros Hd Hs Hr Hst Hm Hl.
  rewrite (async_update_data_sessioned backend depth c Hs). simpl.
  rewrite update_body_eq, (discover_empty backend c Hd).
  rewrite (get_devices_answered backend (location_id c) (api c) st m Hs Hr Hst), Hm.
  simpl py_iter. cbv iota.
  rewrite (store_devices_indexable l _ Hl).
  match goal with
  | |- devices (snd (poll_devices backend ?ids ?data ?c1)) = _ =>
      destruct (poll_devices_frame backend ids data c1) as [new [Hsnd _]]; rewrite Hsnd
  end.
  simpl. rewrite Hd. reflexivity.
Qed.

(** A failed device-list request fails the cycle and leaves the directory
    empty. *)
Lemma discovery_failure_aborts backend depth c :
  devices c = [] ->
  truthy (_session_id (api c)) = true ->
  fst (get_devices backend (location_id c) (api c)) = Raise SchluterAPIError ->
  _async_update_data backend (S depth) c =
    (Raise (UpdateFailed ErrorCommunicating),
     set_api (record_request (GetDevices (Some (_session_id (api c))) (location_id c))
                             (api c)) c).
Proof.
  intros Hd Hs Hf.
  rewrite (async_update_data_sessioned backend depth c Hs).
  rewrite update_body_eq, (discover_empty backend c Hd).
  destruct (get_devices_sessioned backend (location_id c) (api c) Hs) as [Hsnd _].
  destruct (get_devices backend (location_id c) (api c)) as [r a'].
  simpl in Hf, Hsnd. subst r a'. reflexivity.
Qed.

(** C4, as the code has it. A cycle that starts with a non-empty directory
    sends no device-list request and leaves the directory as it is. A cycle
    that starts with an empty directory and a session fetches the device
    list first; when every fetched record is an object with a hashable id,
    the records are stored indexed by id; when the fetch fails with
    [SchluterAPIError], the cycle fails with an update failure, the
    directory stays empty, and the next cycle fetches the list again. *)
Theorem discovery_when_directory_empty
  (backend : Backend) (depth : nat) (c : SchluterDataUpdateCoordinator) :
  let r := _async_update_data backend (S depth) c in
  (devices c <> [] ->
     devices (snd r) = devices c /\
     filter is_get_devices (_session (api (snd r)))
       = filter is_get_devices (_session (api c))) /\
  (devices c = [] -> truthy (_session_id (api c)) = true ->
     let q := GetDevices (Some (_session_id (api c))) (location_id c) in
     (exists rest, _session (api (snd r)) = _session (api c) ++ q :: rest) /\
     (forall st m l,
        backend (_session (api c)) q = Some (mkResponse st (Some (JObj m))) ->
        (st < 400)%Z ->
        dict_get m "devices" = Some (JArr l) ->
        Forall indexable l ->
        devices (snd r) = index_by_id l) /\
     (fst (get_devices backend (location_id c) (api c)) = Raise SchluterAPIError ->
        fst r = Raise (UpdateFailed ErrorCommunicating) /\
        devices (snd r) = [] /\
        forall depth',
        exists rest,
          _session (api (snd (_async_update_data backend (S depth') (snd r))))
            = _session (api (snd r)) ++ q :: rest)).
Proof.
  intros r. split.
  - intros Hne. apply known_directory_not_fetched. exact Hne.
  - intros Hd Hs q. split; [|split].
    + apply empty_directory_fetched; assumption.
    + intros st m l Hr Hst Hm Hl.
      apply (discovery_indexes backend depth c st m l); assumption.
    + intros Hf. unfold r.
      rewrite (discovery_failure_aborts backend depth c Hd Hs Hf). simpl.
      split; [reflexivity|]. split; [exact Hd|]. intros depth'.
      apply (empty_directory_fetched backend depth'
               (set_api (record_request q (api c)) c)); assumption.
Qed.

(** C4 fails as stated: the discovery cycle fails with an update failure
    and leaves one of the two devices in the directory, and the next cycle,
    finding the directory non-empty, does not fetch the list again. *)
Lemma partial_directory_after_failed_discovery :
  let r1 := _async_update_data backend_missing_id 2 coordinator_sessioned in
  let r2 := _async_update_data backend_missing_id 2 (snd r1) in
  fst r1 = Raise (UpdateFailed ErrorCommunicating) /\
  devices (snd r1) = [(JNum 1, device_record 1 "Bath")] /\
  keys (devices (snd r2)) = [JNum 1] /\
  _session (api (snd r2)) =
    [GetDevices (Some (JStr "s1")) 7; GetAttributes (Some (JStr "s1")) (JNum 1)].
Proof. repeat split. Qed.

Lemma discovery_when_directory_empty_witness :
  devices (snd (_async_update_data backend_one_fails 1 coordinator_sessioned))
    = index_by_id [device_record 1 "Bath"; device_record 2 "Hall"; device_record 3 "Kitchen"].
Proof.
  destruct (discovery_when_directory_empty backend_one_fails 0 coordinator_sessioned)
    as [_ H].
  destruct H as [_ [H _]]; [reflexivity | reflexivity |].
  apply (H 200%Z
           [("devices", JArr [device_record 1 "Bath"; device_record 2 "Hall";
                              device_record 3 "Kitchen"])]).
  - reflexivity.
  - reflexivity.
  - reflexivity.
  - repeat constructor; eexists; split; reflexivity.
Defined.

(** ** Re-authentication *)

(** C1, at the failing input. When the login answers carry no session, one
    cycle logs in three times: every nested call of [_async_update_data]
    handles its own authentication error by logging in again. The third
    login is rejected, a reauth flow is started, and the cycle ends with the
    update failure of the enclosing handlers. *)
Theorem relogin_repeats_within_one_cycle (depth : nat) :
  let r := _async_update_data backend_sessionless_login (3 + depth) coordinator_logged_in in
  fst r = Raise (UpdateFailed ConnectionFailed) /\
  _session (api (snd r)) = [PostLogin "tok"; PostLogin "tok"; PostLogin "tok"] /\
  logins (_session (api (snd r))) = 3%nat /\
  reauth_flows (snd r) = 1%nat.
Proof. repeat split. Qed.

(** C3 fails as stated: the status call rejected with 401 raises
    [SchluterAPIError], and the cycle returns an empty poll result without
    logging in again. *)
Lemma expired_session_not_recovered :
  let r := _async_update_data backend_expired_session 3 coordinator_one_device in
  fst (get_thermostat_status backend_expired_session (JNum 1) api_sessioned)
    = Raise SchluterAPIError /\
  fst r = Ok [] /\
  _session (api (snd r)) = [GetAttributes (Some (JStr "s1")) (JNum 1)] /\
  logins (_session (api (snd r))) = 0%nat.
Proof. repeat split. Qed.

(** C3, as the code has it. With a session, a status call the backend
    rejects raises [SchluterAPIError], and a cycle sends no login and starts
    no reauth flow. Without a session the cycle logs in with the stored
    refresh token and runs again; when that login stores a session and the
    second run succeeds, its poll result is returned after exactly one login
    and no reauth flow is started. *)
Theorem session_rejection_is_api_failure
  (backend : Backend) (depth : nat) (c : SchluterDataUpdateCoordinator) :
  (truthy (_session_id (api c)) = true ->
     (forall id resp,
        backend (_session (api c)) (GetAttributes (Some (_session_id (api c))) id)
          = Some resp ->
        (400 <= status resp)%Z ->
        fst (get_thermostat_status backend id (api c)) = Raise SchluterAPIError) /\
     let r := _async_update_data backend (S depth) c in
     logins (_session (api (snd r))) = logins (_session (api c)) /\
     reauth_flows (snd r) = reauth_flows c /\
     ((exists data, fst r = Ok data) \/ fst r = Raise (UpdateFailed ErrorCommunicating))) /\
  (truthy (_session_id (api c)) = false ->
     forall body a1 data c2,
       login backend (refresh_token c) (api c) = (Ok body, a1) ->
       truthy (_session_id a1) = true ->
       update_body backend (set_api a1 c) = (Ok data, c2) ->
       _async_update_data backend (S (S depth)) c = (Ok data, c2) /\
       logins (_session (api c2)) = S (logins (_session (api c))) /\
       reauth_flows c2 = reauth_flows c).
Proof.
  split.
  - intros Hs. split.
    + intros id resp Hr Hst.
      rewrite (get_thermostat_status_rejected backend id (api c) Hs); [reflexivity|].
      rewrite Hr. exact Hst.
    + rewrite (async_update_data_sessioned backend depth c Hs). simpl.
      destruct (update_body_frame backend c Hs) as [new [d [Hsnd [_ [Hnew _]]]]].
      rewrite Hsnd. simpl. split; [apply logins_no_login; exact Hnew|].
      split; [reflexivity|].
      destruct (fst (update_body backend c)) as [data|e];
        [left; eexists; reflexivity | right; reflexivity].
  - intros Hs body a1 data c2 Hlogin Hs1 Hbody.
    rewrite (async_update_data_no_session backend (S depth) c Hs).
    unfold relogin_and_retry. rewrite Hlogin.
    rewrite (async_update_data_sessioned backend depth (set_api a1 c) Hs1), Hbody. simpl.
    split; [reflexivity|].
    destruct (update_body_frame backend (set_api a1 c) Hs1) as [new [d [Hsnd [_ [Hnew _]]]]].
    rewrite Hbody in Hsnd. simpl in Hsnd. subst c2. simpl.
    destruct (login_sends backend (refresh_token c) (api c)) as [Hsent _].
    rewrite Hlogin in Hsent. simpl in Hsent.
    split; [|reflexivity].
    rewrite (logins_no_login _ new Hnew), Hsent.
    unfold logins. rewrite filter_app, length_app. simpl. lia.
Qed.

Lemma session_rejection_is_api_failure_witness :
  (exists data,
     fst (_async_update_data backend_expired_session 2 coordinator_invalidated) = Ok data /\
     keys data = [JNum 1]) /\
  reauth_flows (snd (_async_update_data backend_expired_session 2 coordinator_invalidated))
    = 0%nat /\
  fst (get_thermostat_status backend_expired_session (JNum 1) (api coordinator_one_device))
    = Raise SchluterAPIError.
Proof.
  destruct (session_rejection_is_api_failure backend_expired_session 0
              coordinator_invalidated) as [_ H].
  destruct (session_rejection_is_api_failure backend_expired_session 0
              coordinator_one_device) as [H' _].
  destruct H' as [H' _]; [reflexivity|].
  destruct (H eq_refl
              (JObj [("session", JStr "s2")])
              (snd (login backend_expired_session "tok" (api coordinator_invalidated)))
              (match fst (update_body backend_expired_session
                            (set_api (snd (login backend_expired_session "tok"
                                             (api coordinator_invalidated)))
                                     coordinator_invalidated)) with
               | Ok data => data
               | Raise _ => []
               end)
              (snd (update_body backend_expired_session
                      (set_api (snd (login backend_expired_session "tok"
                                       (api coordinator_invalidated)))
                               coordinator_invalidated))))
    as [Hrun [_ Hflows]].
  - reflexivity.
  - reflexivity.
  - reflexivity.
  - split; [|split].
    + eexists. split; [rewrite Hrun; reflexivity | reflexivity].
    + rewrite Hrun. exact Hflows.
    + apply (H' (JNum 1) (mkResponse 401 None)); [reflexivity | simpl; lia].
Defined.

(** ** The directory stays well formed *)

Lemma update_body_wf backend c :
  directory_wf (devices c) -> directory_wf (devices (snd (update_body backend c))).
Proof.
  intros Hwf. destruct (truthy (_session_id (api c))) eqn:Hs.
  - rewrite update_body_eq.
    destruct (discover_frame backend c Hs) as [new [d [Hsnd [_ [Hwf' _]]]]].
    destruct (discover backend c) as [[u|e] c1]; simpl in Hsnd.
    + destruct (poll_devices_frame backend (keys (devices c1)) [] c1) as [new2 [Hsnd2 _]].
      rewrite Hsnd2, Hsnd. simpl. apply Hwf', Hwf.
    + rewrite Hsnd. simpl. apply Hwf', Hwf.
  - rewrite (update_body_no_session backend c Hs). exact Hwf.
Qed.

(** Every cycle leaves a well-formed directory well formed, so the
    directory of a coordinator is well formed from its creation on. *)
Lemma async_update_data_wf backend depth :
  forall c,
  directory_wf (devices c) ->
  directory_wf (devices (snd (_async_update_data backend depth c))).
Proof.
  induction depth as [|depth IH]; intros c Hwf; [exact Hwf|].
  rewrite async_update_data_eq.
  pose proof (update_body_wf backend c Hwf) as H1.
  destruct (update_body backend c) as [[data|e] c1]; simpl in H1; [exact H1|].
  destruct e; try exact H1.
  unfold relogin_and_retry.
  destruct (login backend (refresh_token c1) (api c1)) as [[j|e] a2].
  - pose proof (IH (set_api a2 c1) H1) as H2.
    destruct (_async_update_data backend depth (set_api a2 c1)) as [[data|e] c3];
      simpl in H2; [exact H2|].
    destruct e; exact H2.
  - destruct e; exact H1.
Qed.

Lemma new_coordinator_wf a location token :
  directory_wf (devices (new_coordinator a location token)).
Proof. split; constructor. Qed.

(** * Further properties of the client *)

(** ** [login] *)



(** What a successful login leaves in the client, field by field. *)
Lemma login_answered backend tok a data :
  fst (login backend tok a) = Ok data ->
  exists st m,
    backend (_session a) (PostLogin tok) = Some (mkResponse st (Some data)) /\
    (st < 400)%Z /\
    data = JObj m /\
    _session (snd (login backend tok a)) = _session a ++ [PostLogin tok] /\
    _refresh_token (snd (login backend tok a)) = Some tok /\
    _access_token (snd (login backend tok a))
      = match dict_get m "access_token" with Some v => v | None => JNull end /\
    _session_id (snd (login backend tok a))
      = match dict_get m "session" with Some v => v | None => _session_id a end /\
    (dict_get m "user" = None ->
       _user_id (snd (login backend tok a)) = _user_id a /\
       _account_id (snd (login backend tok a)) = _account_id a).
Proof.
  unfold login. run. unfold request.
  destruct (backend _ _) as [[st b]|]; simpl; [|discriminate].
  unfold raise_for_status. simpl.
  destruct (400 <=? st)%Z eqn:E; simpl; [discriminate|].
  apply Z.leb_gt in E.
  destruct b as [d|]; simpl; [|discriminate].
  destruct d; simpl; try discriminate.
  unfold dict_has.
  destruct (dict_get m "session") as [sid|] eqn:Es; simpl.
  - destruct (py_slice sid) as [[]|e]; simpl; [|discriminate].
    destruct (dict_get m "user") as [user|] eqn:Eu; simpl.
    + destruct user; simpl; try discriminate.
      destruct (truthy _); simpl.
      * login_done st m Es Eu.
      * destruct (dict_get m "account") as [acc|]; simpl.
        -- destruct acc; simpl; try discriminate. login_done st m Es Eu.
        -- login_done st m Es Eu.
    + login_done st m Es Eu.
  - destruct (dict_get m "user") as [user|] eqn:Eu; simpl.
    + destruct user; simpl; try discriminate.
      destruct (truthy _); simpl.
      * login_done st m Es Eu.
      * destruct (dict_get m "account") as [acc|]; simpl.
        -- destruct acc; simpl; try discriminate. login_done st m Es Eu.
        -- login_done st m Es Eu.
    + login_done st m Es Eu.
Qed.

(** X2. A login that succeeds returns the object the backend answered with a
    status below 400; it stores the token it was given in place of the old
    one, the [access_token] of the answer (none when absent), and the
    [session] of the answer when the answer has that key: without the key
    the session stored before the login stays. *)
Theorem login_success_state (backend : Backend) (tok : string) (a : SchluterAPI) (data : json) :
  fst (login backend tok a) = Ok data ->
  let a' := snd (login backend tok a) in
  exists st m,
    backend (_session a) (PostLogin tok) = Some (mkResponse st (Some data)) /\
    (st < 400)%Z /\
    data = JObj m /\
    _refresh_token a' = Some tok /\
    _access_token a' = match dict_get m "access_token" with Some v => v | None => JNull end /\
    _session_id a' = match dict_get m "session" with Some v => v | None => _session_id a end.
Proof.
  intros H a'.
  destruct (login_answered backend tok a data H)
    as [st [m [Hr [Hst [Hd [_ [Ht [Ha [Hs _]]]]]]]]].
  exists st, m. repeat split; assumption.
Qed.

Lemma login_success_state_witness :
  _session_id (snd (login backend_expired_session "new" api_sessioned)) = JStr "s2" /\
  _refresh_token (snd (login backend_expired_session "new" api_sessioned)) = Some "new" /\
  _session_id (snd (login backend_sessionless_login "new" api_sessioned)) = JStr "s1".
Proof.
  destruct (login_success_state backend_expired_session "new" api_sessioned
              (JObj [("session", JStr "s2")]) eq_refl)
    as [st [m [Hr [_ [Hd [Ht [_ Hs]]]]]]].
  destruct (login_success_state backend_sessionless_login "new" api_sessioned
              (JObj [("user", JObj [("id", JNum 9)])]) eq_refl)
    as [st' [m' [_ [_ [Hd' [_ [_ Hs']]]]]]].
  inversion Hd; subst m. inversion Hd'; subst m'.
  split; [exact Hs | split; [exact Ht | exact Hs']].
Defined.

(** ** [get_devices] and [get_thermostat_status] *)



Lemma py_gt0_spec v b :
  py_gt0 v = Ok b -> (b = true <-> exists q, num_of v = Some q /\ (0 < q)%Q).
Proof.
  unfold py_gt0. destruct (num_of v) as [q|]; [|discriminate].
  intros H. inversion H; subst b. split.
  - intros Hb. exists q. split; [reflexivity|].
    apply Qnot_le_lt. intros Hle. apply Qle_bool_iff in Hle.
    rewrite Hle in Hb. discriminate Hb.
  - intros [q' [Hq Hlt]]. inversion Hq; subst q'.
    destruct (Qle_bool q 0) eqn:E; [|reflexivity].
    apply Qle_bool_iff in E. exfalso. apply (Qlt_not_le _ _ Hlt E).
Qed.

(** What [parse_thermostat] puts in the snapshot. *)
Lemma parse_thermostat_fields id data st :
  parse_thermostat id data = Ok st ->
  exists m,
    data = JObj m /\
    device_id st = id /\
    name st = DefaultName id /\
    target_temp st = match dict_get m "roomSetpoint" with Some v => v | None => JNull end /\
    min_temp st = match dict_get m "roomSetpointMin" with Some v => v | None => JNum 5 end /\
    max_temp st = match dict_get m "roomSetpointMax" with Some v => v | None => JNum 33 end /\
    setpoint_mode st = match dict_get m "setpointMode" with Some v => v | None => JNull end /\
    occupancy_mode st = match dict_get m "occupancyMode" with Some v => v | None => JNull end /\
    gfci_status st = match dict_get m "gfciStatus" with Some v => v | None => JNull end /\
    py_gt0 (heating_percent st) = Ok (heating st).
Proof.
  unfold parse_thermostat. destruct data; simpl; try discriminate.
  destruct (match dict_get m "roomTemperatureDisplay" with
            | Some v => v | None => JObj [] end) as [| | | | |disp]; simpl;
    try discriminate.
  destruct (match dict_get m "outputPercentDisplay" with
            | Some v => v | None => JObj [] end) as [| | | | |out]; simpl;
    try discriminate.
  destruct (py_gt0 _) as [b|e] eqn:Eg; simpl; [|discriminate].
  intros H. inversion H; subst st. simpl. exists m. repeat split. exact Eg.
Qed.

Lemma get_thermostat_status_parsed backend id a st :
  fst (get_thermostat_status backend id a) = Ok st ->
  truthy (_session_id a) = true /\
  exists code data,
    backend (_session a) (GetAttributes (Some (_session_id a)) id)
      = Some (mkResponse code (Some data)) /\
    (code < 400)%Z /\
    parse_thermostat id data = Ok st.
Proof.
  unfold get_thermostat_status. run.
  destruct (truthy (_session_id a)) eqn:Hs; simpl; [|discriminate].
  rewrite (headers_sessioned a Hs). unfold request.
  destruct (backend _ _) as [[code b]|]; simpl; [|discriminate].
  unfold raise_for_status. simpl.
  destruct (400 <=? code)%Z eqn:E; simpl; [discriminate|].
  apply Z.leb_gt in E.
  destruct b as [data|]; simpl; [|discriminate].
  destruct (parse_thermostat id data) as [t|e] eqn:Ep; simpl; [|discriminate].
  intros H. inversion H; subst t. split; [reflexivity|].
  exists code, data. repeat split; assumption.
Qed.

(** X4. Every snapshot [get_thermostat_status] returns carries the device id
    that was asked and the default name, has [heating] true exactly when
    its [heating_percent] is a number above zero, and takes the bounds from
    the answer, 5 and 33 standing in for an absent [roomSetpointMin] and
    [roomSetpointMax]. *)
Theorem status_snapshot_invariants
  (backend : Backend) (id : json) (a : SchluterAPI) (st : SchluterThermostat) :
  fst (get_thermostat_status backend id a) = Ok st ->
  device_id st = id /\
  name st = DefaultName id /\
  (heating st = true <-> exists q, num_of (heating_percent st) = Some q /\ (0 < q)%Q) /\
  exists code m,
    backend (_session a) (GetAttributes (Some (_session_id a)) id)
      = Some (mkResponse code (Some (JObj m))) /\
    target_temp st = match dict_get m "roomSetpoint" with Some v => v | None => JNull end /\
    min_temp st = match dict_get m "roomSetpointMin" with Some v => v | None => JNum 5 end /\
    max_temp st = match dict_get m "roomSetpointMax" with Some v => v | None => JNum 33 end.
Proof.
  intros H.
  destruct (get_thermostat_status_parsed backend id a st H) as [_ [code [data [Hr [_ Hp]]]]].
  destruct (parse_thermostat_fields id data st Hp)
    as [m [Hd [Hid [Hn [Ht [Hmin [Hmax [_ [_ [_ Hh]]]]]]]]]].
  subst data. split; [exact Hid|]. split; [exact Hn|].
  split; [apply py_gt0_spec; exact Hh|].
  exists code, m. repeat split; assumption.
Qed.

Lemma status_snapshot_invariants_witness :
  exists st,
    fst (get_thermostat_status backend_clamping (JNum 1) api_sessioned) = Ok st /\
    min_temp st = JNum 5 /\ max_temp st = JNum 33 /\ device_id st = JNum 1.
Proof.
  eexists. split; [reflexivity|].
  destruct (status_snapshot_invariants backend_clamping (JNum 1) api_sessioned _ eq_refl)
    as [Hid [_ [_ [code [m [Hr [_ [Hmin Hmax]]]]]]]].
  inversion Hr; subst m. split; [exact Hmin | split; [exact Hmax | exact Hid]].
Defined.

Lemma get_thermostat_status_answered backend id a code m :
  truthy (_session_id a) = true ->
  backend (_session a) (GetAttributes (Some (_session_id a)) id)
    = Some (mkResponse code (Some (JObj m))) ->
  (code < 400)%Z ->
  fst (get_thermostat_status backend id a) =
    match parse_thermostat id (JObj m) with
    | Ok st => Ok st
    | Raise _ => Raise SchluterAPIError
    end.
Proof.
  intros Hs Hr Hc. unfold get_thermostat_status. run. rewrite Hs. simpl.
  rewrite (headers_sessioned a Hs). unfold request. rewrite Hr.
  unfold raise_for_status. simpl. apply Z.leb_gt in Hc. rewrite Hc. simpl.
  destruct (parse_thermostat id (JObj m)); reflexivity.
Qed.

Lemma parse_thermostat_accepts id m :
  (exists st, parse_thermostat id (JObj m) = Ok st) <-> status_payload_ok m.
Proof.
  unfold parse_thermostat, status_payload_ok, py_gt0. simpl.
  destruct (dict_get m "roomTemperatureDisplay") as [[| | | | |disp]|]; simpl;
    try (split; [intros [st H]; discriminate H | intros [[] _]]);
    (destruct (dict_get m "outputPercentDisplay") as [[| | | | |out]|]; simpl;
     try (split; [intros [st H]; discriminate H | intros [_ []]]));
    try (destruct (dict_get out "percent") as [p|]; simpl;
         [destruct (num_of p) as [q|]; simpl;
          [split; [intros _; split; [exact I | discriminate]
                  | intros _; eexists; reflexivity]
          |split; [intros [st H]; discriminate H
                  | intros [_ H]; exfalso; apply H; reflexivity]]
         |split; [intros _; split; exact I | intros _; eexists; reflexivity]]);
    try (split; [intros _; split; exact I | intros _; eexists; reflexivity]).
Qed.

(** X5. With a session and an answer that is a JSON object with a status
    below 400, [get_thermostat_status] returns a snapshot exactly when
    [roomTemperatureDisplay] and [outputPercentDisplay] are objects or
    absent and the percentage inside the latter is a number or absent; any
    other attribute map, such as a percentage that is null or a string,
    raises [SchluterAPIError]. *)
Theorem status_payload_accepted
  (backend : Backend) (id : json) (a : SchluterAPI) (code : Z) (m : list (string * json)) :
  truthy (_session_id a) = true ->
  backend (_session a) (GetAttributes (Some (_session_id a)) id)
    = Some (mkResponse code (Some (JObj m))) ->
  (code < 400)%Z ->
  ((exists st, fst (get_thermostat_status backend id a) = Ok st) <-> status_payload_ok m) /\
  (~ status_payload_ok m ->
     fst (get_thermostat_status backend id a) = Raise SchluterAPIError).
Proof.
  intros Hs Hr Hc.
  rewrite (get_thermostat_status_answered backend id a code m Hs Hr Hc).
  pose proof (parse_thermostat_accepts id m) as P.
  destruct (parse_thermostat id (JObj m)) as [st|e].
  - split.
    + split; [intros _; apply P; eexists; reflexivity | intros _; eexists; reflexivity].
    + intros Hn. exfalso. apply Hn, P. eexists. reflexivity.
  - split.
    + split; [intros [st H]; discriminate H|].
      intros Hok. apply P in Hok. destruct Hok as [st H]. discriminate H.
    + reflexivity.
Qed.

Lemma status_payload_accepted_witness :
  fst (get_thermostat_status backend_null_percent (JNum 1) api_sessioned)
    = Raise SchluterAPIError.
Proof.
  destruct (status_payload_accepted backend_null_percent (JNum 1) api_sessioned 200
              [("roomSetpoint", JNum 21);
               ("outputPercentDisplay", JObj [("percent", JNull)])])
    as [_ H]; [reflexivity | reflexivity | reflexivity |].
  apply H. intros [_ Hp]. apply Hp. reflexivity.
Defined.

(** ** The write operations *)

Lemma set_mode_cases backend id mode a :
  set_mode backend id mode a =
    if negb (valid_mode mode) then (Raise ValueError, a)
    else if negb (truthy (_session_id a)) then (Raise SchluterAuthenticationError, a)
    else
      (match backend (_session a)
               (PutAttribute (Some (_session_id a)) id "setpointMode" (JStr mode)) with
       | Some resp => if (400 <=? status resp)%Z then Raise SchluterAPIError else Ok true
       | None => Raise SchluterAPIError
       end,
       record_request (PutAttribute (Some (_session_id a)) id "setpointMode" (JStr mode)) a).
Proof.
  unfold set_mode. destruct (valid_mode mode); simpl; [|reflexivity]. run.
  destruct (truthy (_session_id a)) eqn:Hs; simpl; [|reflexivity].
  rewrite (headers_sessioned a Hs). unfold request.
  destruct (backend _ _) as [resp|]; simpl; [|reflexivity].
  unfold raise_for_status. destruct (400 <=? status resp)%Z; reflexivity.
Qed.

Lemma set_occupancy_mode_cases backend id occupancy a :
  set_occupancy_mode backend id occupancy a =
    if negb (valid_occupancy occupancy) then (Raise ValueError, a)
    else if negb (truthy (_session_id a)) then (Raise SchluterAuthenticationError, a)
    else
      (match backend (_session a)
               (PutAttribute (Some (_session_id a)) id "occupancyMode" (JStr occupancy)) with
       | Some resp => if (400 <=? status resp)%Z then Raise SchluterAPIError else Ok true
       | None => Raise SchluterAPIError
       end,
       record_request
         (PutAttribute (Some (_session_id a)) id "occupancyMode" (JStr occupancy)) a).
Proof.
  unfold set_occupancy_mode. destruct (valid_occupancy occupancy); simpl; [|reflexivity]. run.
  destruct (truthy (_session_id a)) eqn:Hs; simpl; [|reflexivity].
  rewrite (headers_sessioned a Hs). unfold request.
  destruct (backend _ _) as [resp|]; simpl; [|reflexivity].
  unfold raise_for_status. destruct (400 <=? status resp)%Z; reflexivity.
Qed.

Lemma set_temperature_cases backend id t a :
  set_temperature backend id t a =
    if negb (truthy (_session_id a)) then (Raise SchluterAuthenticationError, a)
    else
      (match backend (_session a)
               (PutAttribute (Some (_session_id a)) id "roomSetpoint" (JNum t)) with
       | Some resp =>
           if (400 <=? status resp)%Z then Raise SchluterAPIError
           else
             match body resp with
             | Some (JObj m) =>
                 Ok (py_eq_float (match dict_get m "roomSetpoint" with
                                  | Some v => v | None => JNull end) t)
             | _ => Raise SchluterAPIError
             end
       | None => Raise SchluterAPIError
       end,
       record_request (PutAttribute (Some (_session_id a)) id "roomSetpoint" (JNum t)) a).
Proof.
  unfold set_temperature. run.
  destruct (truthy (_session_id a)) eqn:Hs; simpl; [|reflexivity].
  rewrite (headers_sessioned a Hs). unfold request.
  destruct (backend _ _) as [[st b]|]; simpl; [|reflexivity].
  unfold raise_for_status. simpl. destruct (400 <=? st)%Z; simpl; [reflexivity|].
  destruct b as [data|]; simpl; [|reflexivity].
  destruct data; simpl; try reflexivity.
  destruct (py_eq_float _ t); reflexivity.
Qed.

(** X6. [set_mode] and [set_occupancy_mode] never return false. Each returns
    true exactly when its argument is valid, a session is stored and the
    backend answers the write with a status below 400, whatever the body of
    the answer, if any. *)
Theorem mode_writes_return_true_or_raise
  (backend : Backend) (id : json) (mode occupancy : string) (a : SchluterAPI) :
  fst (set_mode backend id mode a) <> Ok false /\
  fst (set_occupancy_mode backend id occupancy a) <> Ok false /\
  (fst (set_mode backend id mode a) = Ok true <->
     In mode ["manual"; "schedule"] /\
     truthy (_session_id a) = true /\
     exists resp,
       backend (_session a)
         (PutAttribute (Some (_session_id a)) id "setpointMode" (JStr mode)) = Some resp /\
       (status resp < 400)%Z) /\
  (fst (set_occupancy_mode backend id occupancy a) = Ok true <->
     In occupancy ["home"; "away"] /\
     truthy (_session_id a) = true /\
     exists resp,
       backend (_session a)
         (PutAttribute (Some (_session_id a)) id "occupancyMode" (JStr occupancy))
         = Some resp /\
       (status resp < 400)%Z).
Proof.
  rewrite set_mode_cases, set_occupancy_mode_cases.
  rewrite <- valid_mode_In, <- valid_occupancy_In.
  split; [|split; [|split]].
  - destruct (valid_mode mode); simpl; [|discriminate].
    destruct (truthy (_session_id a)); simpl; [|discriminate].
    destruct (backend _ _) as [resp|]; simpl; [|discriminate].
    destruct (400 <=? status resp)%Z; discriminate.
  - destruct (valid_occupancy occupancy); simpl; [|discriminate].
    destruct (truthy (_session_id a)); simpl; [|discriminate].
    destruct (backend _ _) as [resp|]; simpl; [|discriminate].
    destruct (400 <=? status resp)%Z; discriminate.
  - destruct (valid_mode mode); simpl;
      [|split; [discriminate | intros [H _]; discriminate H]].
    destruct (truthy (_session_id a)); simpl;
      [|split; [discriminate | intros [_ [H _]]; discriminate H]].
    destruct (backend _ _) as [resp|]; simpl;
      [|split; [discriminate | intros [_ [_ [r [H _]]]]; discriminate H]].
    destruct (400 <=? status resp)%Z eqn:E; simpl.
    + split; [discriminate|]. intros [_ [_ [r [H Hst]]]]. inversion H; subst r.
      apply Z.leb_le in E. lia.
    + apply Z.leb_gt in E. split; [|reflexivity].
      intros _. repeat split. exists resp. split; [reflexivity | exact E].
  - destruct (valid_occupancy occupancy); simpl;
      [|split; [discriminate | intros [H _]; discriminate H]].
    destruct (truthy (_session_id a)); simpl;
      [|split; [discriminate | intros [_ [H _]]; discriminate H]].
    destruct (backend _ _) as [resp|]; simpl;
      [|split; [discriminate | intros [_ [_ [r [H _]]]]; discriminate H]].
    destruct (400 <=? status resp)%Z eqn:E; simpl.
    + split; [discriminate|]. intros [_ [_ [r [H Hst]]]]. inversion H; subst r.
      apply Z.leb_le in E. lia.
    + apply Z.leb_gt in E. split; [|reflexivity].
      intros _. repeat split. exists resp. split; [reflexivity | exact E].
Qed.

Lemma mode_writes_return_true_or_raise_witness :
  fst (set_mode backend_null_percent (JNum 1) "schedule" api_sessioned) = Ok true.
Proof.
  destruct (mode_writes_return_true_or_raise backend_null_percent (JNum 1)
              "schedule" "home" api_sessioned) as [_ [_ [H _]]].
  apply H. split; [right; left; reflexivity|]. split; [reflexivity|].
  eexists. split; [reflexivity | reflexivity].
Defined.

(** X7. No device call touches the credentials: after [get_devices],
    [get_thermostat_status], [set_temperature], [set_mode] or
    [set_occupancy_mode], whether it returned or raised, the client is the
    one before the call, with at most the one request of the call added to
    the requests sent. *)
Theorem device_calls_keep_credentials
  (backend : Backend) (loc : Z) (id : json) (t : Q) (mode occupancy : string)
  (a : SchluterAPI) :
  let kept (a' : SchluterAPI) := a' = a \/ exists r, a' = record_request r a in
  kept (snd (get_devices backend loc a)) /\
  kept (snd (get_thermostat_status backend id a)) /\
  kept (snd (set_temperature backend id t a)) /\
  kept (snd (set_mode backend id mode a)) /\
  kept (snd (set_occupancy_mode backend id occupancy a)).
Proof.
  intros kept. unfold kept.
  rewrite set_temperature_cases, set_mode_cases, set_occupancy_mode_cases.
  destruct (truthy (_session_id a)) eqn:Hs.
  - destruct (get_devices_sessioned backend loc a Hs) as [Hd _].
    destruct (get_thermostat_status_sessioned backend id a Hs) as [Ht _].
    rewrite Hd, Ht. simpl.
    split; [right; eexists; reflexivity|].
    split; [right; eexists; reflexivity|].
    split; [right; eexists; reflexivity|].
    split.
    + destruct (valid_mode mode); simpl; [right; eexists; reflexivity | left; reflexivity].
    + destruct (valid_occupancy occupancy); simpl;
        [right; eexists; reflexivity | left; reflexivity].
  - rewrite (get_devices_no_session backend loc a Hs).
    rewrite (get_thermostat_status_no_session backend id a Hs). simpl.
    split; [left; reflexivity|]. split; [left; reflexivity|].
    split; [left; reflexivity|].
    split.
    + destruct (valid_mode mode); simpl; left; reflexivity.
    + destruct (valid_occupancy occupancy); simpl; left; reflexivity.
Qed.

(** ** [logout] and [connect] with the device calls *)

(** X8. After [logout] every device call raises
    [SchluterAuthenticationError] and sends nothing, a write with a valid
    argument included, and a second [logout] changes nothing. [logout] itself
    sends no request. *)
Theorem no_device_call_after_logout
  (backend : Backend) (loc : Z) (id : json) (t : Q) (mode occupancy : string)
  (a : SchluterAPI) :
  In mode ["manual"; "schedule"] ->
  In occupancy ["home"; "away"] ->
  let a' := snd (logout a) in
  _session a' = _session a /\
  get_devices backend loc a' = (Raise SchluterAuthenticationError, a') /\
  get_thermostat_status backend id a' = (Raise SchluterAuthenticationError, a') /\
  set_temperature backend id t a' = (Raise SchluterAuthenticationError, a') /\
  set_mode backend id mode a' = (Raise SchluterAuthenticationError, a') /\
  set_occupancy_mode backend id occupancy a' = (Raise SchluterAuthenticationError, a') /\
  logout a' = (Ok true, a').
Proof.
  intros Hm Ho a'.
  apply valid_mode_In in Hm. apply valid_occupancy_In in Ho.
  assert (Hs : truthy (_session_id a') = false).
  { unfold a'. rewrite logout_runs. simpl.
    destruct (truthy (_session_id a)) eqn:E; [reflexivity | exact E]. }
  split.
  { unfold a'. rewrite logout_runs. simpl. destruct (truthy (_session_id a)); reflexivity. }
  split; [apply get_devices_no_session; exact Hs|].
  split; [apply get_thermostat_status_no_session; exact Hs|].
  split; [rewrite set_temperature_cases, Hs; reflexivity|].
  split; [apply set_mode_no_session; assumption|].
  split; [apply set_occupancy_mode_no_session; assumption|].
  rewrite logout_runs, Hs. reflexivity.
Qed.

Lemma no_device_call_after_logout_witness :
  get_thermostat_status backend_ok (JNum 1) (snd (logout api_sessioned))
    = (Raise SchluterAuthenticationError, snd (logout api_sessioned)).
Proof.
  destruct (no_device_call_after_logout backend_ok 7 (JNum 1) 21 "manual" "home"
              api_sessioned) as [_ [_ [H _]]].
  - left. reflexivity.
  - left. reflexivity.
  - exact H.
Defined.



(** X10. A [connect] that fails because the backend did not answer, answered
    with a status of 400 or more or without JSON, or answered an object in
    which the first candidate key present holds an empty value or no
    candidate key is present, leaves the stored session and tokens as they
    were. A first match that is truthy but is neither a string nor a list,
    such as a number, is stored as the session although [connect] raises. *)
Theorem connect_failure_and_stored_session
  (backend : Backend) (a : SchluterAPI) (tok : string) :
  _refresh_token a = Some tok -> tok <> EmptyString ->
  let q := PostConnect tok in
  ((backend (_session a) q = None \/
    exists resp, backend (_session a) q = Some resp /\
                 ((400 <= status resp)%Z \/ body resp = None)) ->
   connect backend a = (Raise SchluterAuthenticationError, record_request q a)) /\
  (forall st m,
     backend (_session a) q = Some (mkResponse st (Some (JObj m))) ->
     (st < 400)%Z ->
     (truthy (match first_match m session_keys with Some v => v | None => JNull end)
        = false ->
      connect backend a = (Raise SchluterAuthenticationError, record_request q a)) /\
     (forall v,
        first_match m session_keys = Some v -> truthy v = true ->
        py_slice v = Raise PyError ->
        connect backend a
          = (Raise SchluterAuthenticationError, set_session_id v (record_request q a)))).
Proof.
  intros Ht Hne q. split.
  - intros Hr. apply connect_not_answered; try assumption.
    destruct Hr as [Hr | [resp [Hr Hbad]]]; fold q; rewrite Hr; [exact I | exact Hbad].
  - intros st m Hr Hst.
    pose proof (connect_answered backend a tok st m Ht Hne Hr Hst) as C.
    cbv zeta in C. rewrite C. clear C. split.
    + intros Hf. rewrite Hf. reflexivity.
    + intros v Hv Htr Hsl. rewrite Hv, Htr, Hsl. reflexivity.
Qed.

Lemma connect_failure_and_stored_session_witness :
  connect (fun _ _ => Some (mkResponse 200 (Some (JObj [("session", JNum 7)]))))
          api_logged_in
    = (Raise SchluterAuthenticationError,
       set_session_id (JNum 7) (record_request (PostConnect "tok") api_logged_in)).
Proof.
  destruct (connect_failure_and_stored_session
              (fun _ _ => Some (mkResponse 200 (Some (JObj [("session", JNum 7)]))))
              api_logged_in "tok" eq_refl) as [_ H].
  - discriminate.
  - destruct (H 200%Z [("session", JNum 7)] eq_refl eq_refl) as [_ H2].
    apply (H2 (JNum 7)); reflexivity.
Defined.

(** * Further properties of the coordinator *)

(** ** What a cycle raises *)

(** X11. A cycle returns a poll result or raises [UpdateFailed]: no
    authentication error, API error or other exception of the client leaves
    [_async_update_data]. *)
Theorem cycle_fails_only_with_update_failed
  (backend : Backend) (depth : nat) (c : SchluterDataUpdateCoordinator) (e : exn) :
  fst (_async_update_data backend (S depth) c) = Raise e ->
  exists why, e = UpdateFailed why.
Proof.
  rewrite async_update_data_eq.
  destruct (update_body backend c) as [[data|e0] c1]; simpl; [discriminate|].
  destruct e0; simpl;
    try (intros H; inversion H; eexists; reflexivity).
  unfold relogin_and_retry.
  destruct (login backend (refresh_token c1) (api c1)) as [[j|e1] a2].
  - destruct (_async_update_data backend depth (set_api a2 c1)) as [[data|e2] c3]; simpl;
      [discriminate|].
    destruct e2; simpl; intros H; inversion H; eexists; reflexivity.
  - destruct e1; simpl; intros H; inversion H; eexists; reflexivity.
Qed.

Lemma cycle_fails_only_with_update_failed_witness :
  exists why,
    fst (_async_update_data backend_missing_id 2 coordinator_sessioned)
      = Raise (UpdateFailed why).
Proof.
  destruct (cycle_fails_only_with_update_failed backend_missing_id 1 coordinator_sessioned
              (UpdateFailed ErrorCommunicating) eq_refl) as [why H].
  exists why. rewrite <- H. reflexivity.
Defined.

Lemma update_body_reauth_flows backend c :
  reauth_flows (snd (update_body backend c)) = reauth_flows c.
Proof.
  destruct (truthy (_session_id (api c))) eqn:Hs.
  - destruct (update_body_frame backend c Hs) as [new [d [Hsnd _]]].
    rewrite Hsnd. reflexivity.
  - rewrite (update_body_no_session backend c Hs). reflexivity.
Qed.

Lemma reauth_flows_step backend depth :
  forall c,
  reauth_flows (snd (_async_update_data backend depth c)) = reauth_flows c \/
  (reauth_flows (snd (_async_update_data backend depth c)) = S (reauth_flows c) /\
   exists why, fst (_async_update_data backend depth c) = Raise (UpdateFailed why)).
Proof.
  induction depth as [|depth IH]; intros c; [left; reflexivity|].
  rewrite async_update_data_eq.
  pose proof (update_body_reauth_flows backend c) as Hb.
  destruct (update_body backend c) as [[data|e] c1]; simpl in Hb; [left; exact Hb|].
  destruct e; try (left; exact Hb).
  unfold relogin_and_retry.
  destruct (login backend (refresh_token c1) (api c1)) as [[j|e1] a2].
  - pose proof (IH (set_api a2 c1)) as H. simpl in H. rewrite Hb in H.
    destruct (_async_update_data backend depth (set_api a2 c1)) as [[data|e2] c3];
      simpl in *.
    + destruct H as [H | [_ [why H]]]; [left; exact H | discriminate H].
    + destruct e2; simpl;
        try (destruct H as [H | [H _]];
             [left; exact H | right; split; [exact H | eexists; reflexivity]]).
      destruct H as [H | [_ [why H]]]; [|discriminate H].
      right. split; [rewrite H; reflexivity | eexists; reflexivity].
  - destruct e1; simpl; try (left; exact Hb).
    right. split; [rewrite Hb; reflexivity | eexists; reflexivity].
Qed.

(** X12. A cycle starts at most one reauth flow, however many times it logs
    in again, and a cycle that starts one raises [UpdateFailed]: a cycle that
    returns a poll result starts none. *)
Theorem at_most_one_reauth_flow_per_cycle
  (backend : Backend) (depth : nat) (c : SchluterDataUpdateCoordinator) :
  let r := _async_update_data backend depth c in
  (reauth_flows (snd r) = reauth_flows c \/ reauth_flows (snd r) = S (reauth_flows c)) /\
  (reauth_flows (snd r) <> reauth_flows c ->
     exists why, fst r = Raise (UpdateFailed why)) /\
  (forall data, fst r = Ok data -> reauth_flows (snd r) = reauth_flows c).
Proof.
  intros r. unfold r.
  destruct (reauth_flows_step backend depth c) as [H | [H [why Hw]]].
  - split; [left; exact H|]. split; [intros C; contradiction | intros _ _; exact H].
  - split; [right; exact H|]. split; [intros _; exists why; exact Hw|].
    intros data Hd. rewrite Hd in Hw. discriminate Hw.
Qed.

Lemma at_most_one_reauth_flow_per_cycle_witness :
  exists why,
    fst (_async_update_data backend_sessionless_login 5 coordinator_logged_in)
      = Raise (UpdateFailed why).
Proof.
  destruct (at_most_one_reauth_flow_per_cycle backend_sessionless_login 5
              coordinator_logged_in) as [_ [H _]].
  apply H. simpl. discriminate.
Defined.

(** ** The entries of a poll result *)

Lemma poll_devices_entries backend ids :
  forall data c data' c',
  truthy (_session_id (api c)) = true ->
  (forall id, In id ids -> exists m, dict_index (devices c) id = Ok (JObj m)) ->
  distinct_keys ids ->
  Forall (fun k => Forall (fun id => key_eqb k id = false) ids) (keys data) ->
  Forall (entry_of_directory (devices c)) data ->
  poll_devices backend ids data c = (Ok data', c') ->
  Forall (entry_of_directory (devices c)) data'.
Proof.
  induction ids as [|id rest IH]; intros data c data' c' Hs Hidx Hd Hfresh Hdata Hrun.
  - simpl in Hrun. inversion Hrun; subst. exact Hdata.
  - inversion Hd as [|k l Hrefl Hlater Hd']; subst k l.
    rewrite poll_devices_cons in Hrun.
    destruct (get_thermostat_status_sessioned backend id (api c) Hs) as [Hsnd Hfst].
    destruct (get_thermostat_status backend id (api c)) as [r a'] eqn:G.
    simpl in Hsnd, Hfst. subst a'.
    set (c1 := set_api (record_request (GetAttributes (Some (_session_id (api c))) id)
                                       (api c)) c) in *.
    assert (Hfresh' : Forall (fun k => Forall (fun id0 => key_eqb k id0 = false) rest)
                             (keys data)).
    { eapply Forall_impl; [|exact Hfresh]. intros k Hk. inversion Hk; assumption. }
    assert (Hhead : Forall (fun k => key_eqb k id = false) (keys data)).
    { eapply Forall_impl; [|exact Hfresh]. intros k Hk. inversion Hk; assumption. }
    assert (Hidx' : forall id0, In id0 rest ->
                      exists m, dict_index (devices c1) id0 = Ok (JObj m)).
    { intros id0 Hin. apply Hidx. right. exact Hin. }
    destruct Hfst as [Hr | [st Hr]]; subst r.
    + apply (IH data c1 data' c' Hs Hidx' Hd' Hfresh' Hdata Hrun).
    + destruct (Hidx id (or_introl eq_refl)) as [m Hm]. rewrite Hm in Hrun.
      simpl in Hrun.
      set (st' := set_name _ st) in Hrun.
      rewrite (dict_set_fresh data id st' Hhead) in Hrun.
      apply (IH (data ++ [(id, st')]) c1 data' c' Hs Hidx' Hd'); try exact Hrun.
      * rewrite keys_app. apply Forall_app. split; [exact Hfresh'|].
        constructor; [exact Hlater | constructor].
      * apply Forall_app. split; [exact Hdata|].
        constructor; [|constructor]. split; simpl.
        -- assert (Hst : fst (get_thermostat_status backend id (api c)) = Ok st)
             by (rewrite G; reflexivity).
           destruct (get_thermostat_status_parsed backend id (api c) st Hst)
             as [_ [code [body0 [_ [_ Hp]]]]].
           destruct (parse_thermostat_fields id body0 st Hp) as [m0 [_ [Hid _]]].
           exact Hid.
        -- exists m. split; [exact Hm | reflexivity].
Qed.

(** The entries of a cycle's poll result, and the directory it leaves. *)
Lemma cycle_entries backend depth c c1 data :
  truthy (_session_id (api c)) = true ->
  directory_wf (devices c) ->
  discover backend c = (Ok tt, c1) ->
  fst (_async_update_data backend (S depth) c) = Ok data ->
  Forall (entry_of_directory (devices c1)) data /\
  devices (snd (_async_update_data backend (S depth) c)) = devices c1.
Proof.
  intros Hs Hwf Hdisc Hrun.
  destruct (discover_frame backend c Hs) as [new [d [Hsnd [_ [Hwf' _]]]]].
  rewrite Hdisc in Hsnd. simpl in Hsnd.
  assert (Hs1 : truthy (_session_id (api c1)) = true) by (rewrite Hsnd; exact Hs).
  assert (Hwf1 : directory_wf (devices c1)) by (rewrite Hsnd; simpl; apply Hwf'; exact Hwf).
  rewrite async_update_data_eq, update_body_eq, Hdisc in Hrun.
  rewrite async_update_data_eq, update_body_eq, Hdisc.
  destruct (poll_devices_frame backend (keys (devices c1)) [] c1)
    as [new2 [Hsnd2 [_ [Hno _]]]].
  destruct (poll_devices backend (keys (devices c1)) [] c1) as [[data'|e] c2] eqn:Hp.
  - simpl in Hrun. inversion Hrun; subst data'. simpl in Hsnd2. split.
    + apply (poll_devices_entries backend (keys (devices c1)) [] c1 data c2 Hs1);
        try exact Hp.
      * intros id Hin. apply dict_index_wf; assumption.
      * apply Hwf1.
      * constructor.
      * constructor.
    + simpl. rewrite Hsnd2. reflexivity.
  - destruct e; simpl in Hrun; try discriminate Hrun.
    exfalso. apply (Hno Hs1). reflexivity.
Qed.

(** X13. In the poll result of a cycle run with a session, every entry is
    keyed by the device id of its snapshot, and the snapshot carries the
    name found in the directory record of that device, or the default name
    when the record has no name. *)
Theorem poll_result_entries
  (backend : Backend) (depth : nat) (c c1 : SchluterDataUpdateCoordinator)
  (data : pydict SchluterThermostat) :
  truthy (_session_id (api c)) = true ->
  directory_wf (devices c) ->
  discover backend c = (Ok tt, c1) ->
  fst (_async_update_data backend (S depth) c) = Ok data ->
  Forall (entry_of_directory (devices c1)) data.
Proof.
  intros Hs Hwf Hdisc Hrun.
  apply (cycle_entries backend depth c c1 data Hs Hwf Hdisc Hrun).
Qed.

Lemma poll_result_entries_witness :
  exists data,
    fst (_async_update_data backend_one_fails 1 coordinator_sessioned) = Ok data /\
    Forall (entry_of_directory
              (devices (snd (discover backend_one_fails coordinator_sessioned)))) data.
Proof.
  eexists. split; [reflexivity|].
  apply (poll_result_entries backend_one_fails 0 coordinator_sessioned).
  - reflexivity.
  - split; constructor.
  - reflexivity.
  - reflexivity.
Defined.

(** ** The directory over cycles *)

(** X16. Whatever the backend answers, after any number of cycles run on a
    newly created coordinator the directory has distinct keys, each equal to
    itself as a dict key, and a JSON object as the record of every device. *)
Theorem directory_well_formed_after_cycles
  (backend : Backend) (depths : list nat) (a : SchluterAPI) (location : Z) (token : string) :
  directory_wf (devices (run_cycles backend depths (new_coordinator a location token))).
Proof.
  assert (G : forall c, directory_wf (devices c) ->
                        directory_wf (devices (run_cycles backend depths c))).
  { induction depths as [|depth rest IH]; intros c Hwf; [exact Hwf|].
    simpl. apply IH. apply async_update_data_wf. exact Hwf. }
  apply G. apply new_coordinator_wf.
Qed.

(** ** Two cycles against an unchanged backend *)

Lemma get_thermostat_status_history backend id a a' :
  history_independent backend ->
  _session_id a = _session_id a' ->
  fst (get_thermostat_status backend id a) = fst (get_thermostat_status backend id a').
Proof.
  intros Hb He. unfold get_thermostat_status, _get_headers. run. rewrite <- He.
  destruct (truthy (_session_id a)); simpl; [|reflexivity].
  unfold request. rewrite (Hb (_session a) (_session a')).
  destruct (backend _ _) as [[st b]|]; simpl; [|reflexivity].
  unfold raise_for_status. simpl. destruct (400 <=? st)%Z; simpl; [reflexivity|].
  destruct b as [data|]; simpl; [|reflexivity].
  destruct (parse_thermostat id data); reflexivity.
Qed.

Lemma get_devices_history backend loc a a' :
  history_independent backend ->
  _session_id a = _session_id a' ->
  fst (get_devices backend loc a) = fst (get_devices backend loc a').
Proof.
  intros Hb He. unfold get_devices, _get_headers. run. rewrite <- He.
  destruct (truthy (_session_id a)); simpl; [|reflexivity].
  unfold request. rewrite (Hb (_session a) (_session a')).
  destruct (backend _ _) as [[st b]|]; simpl; [|reflexivity].
  unfold raise_for_status. simpl. destruct (400 <=? st)%Z; simpl; [reflexivity|].
  destruct b as [data|]; simpl; [|reflexivity].
  destruct (py_get data "devices" (JArr [])); reflexivity.
Qed.

Lemma get_thermostat_status_session_id backend id a :
  _session_id (snd (get_thermostat_status backend id a)) = _session_id a.
Proof.
  destruct (truthy (_session_id a)) eqn:Hs.
  - destruct (get_thermostat_status_sessioned backend id a Hs) as [H _].
    rewrite H. reflexivity.
  - rewrite (get_thermostat_status_no_session backend id a Hs). reflexivity.
Qed.

Lemma get_devices_session_id backend loc a :
  _session_id (snd (get_devices backend loc a)) = _session_id a.
Proof.
  destruct (truthy (_session_id a)) eqn:Hs.
  - destruct (get_devices_sessioned backend loc a Hs) as [H _]. rewrite H. reflexivity.
  - rewrite (get_devices_no_session backend loc a Hs). reflexivity.
Qed.

(** Against such a backend the result of the status loop depends on the
    directory and the session only. *)
Lemma poll_devices_history backend ids :
  history_independent backend ->
  forall data c c',
  devices c = devices c' ->
  _session_id (api c) = _session_id (api c') ->
  fst (poll_devices backend ids data c) = fst (poll_devices backend ids data c').
Proof.
  intros Hb. induction ids as [|id rest IH]; intros data c c' Hd He; [reflexivity|].
  rewrite !poll_devices_cons.
  pose proof (get_thermostat_status_history backend id (api c) (api c') Hb He) as Hf.
  pose proof (get_thermostat_status_session_id backend id (api c)) as H1.
  pose proof (get_thermostat_status_session_id backend id (api c')) as H2.
  destruct (get_thermostat_status backend id (api c)) as [r a1].
  destruct (get_thermostat_status backend id (api c')) as [r' a1'].
  simpl in Hf, H1, H2. subst r'. rewrite <- Hd.
  assert (Hnext : forall data0,
            fst (poll_devices backend rest data0 (set_api a1 c))
            = fst (poll_devices backend rest data0 (set_api a1' c'))).
  { intros data0. apply IH; simpl; [exact Hd | congruence]. }
  destruct r as [st|e].
  - destruct (dict_index (devices c) id) as [dev|e]; [|reflexivity].
    destruct (device_name dev id); [apply Hnext | reflexivity].
  - destruct e; try reflexivity. apply Hnext.
Qed.

Lemma store_devices_devices device_list :
  forall c c',
  devices c = devices c' ->
  fst (store_devices device_list c) = fst (store_devices device_list c') /\
  devices (snd (store_devices device_list c)) = devices (snd (store_devices device_list c')).
Proof.
  induction device_list as [|device rest IH]; intros c c' Hd; [split; [reflexivity | exact Hd]|].
  rewrite !store_devices_cons.
  destruct (py_index device "id") as [id|e]; [|split; [reflexivity | exact Hd]].
  destruct (hashable id); [|split; [reflexivity | exact Hd]].
  apply IH. simpl. rewrite Hd. reflexivity.
Qed.

Lemma discover_history backend c c' :
  history_independent backend ->
  devices c = [] -> devices c' = [] ->
  _session_id (api c) = _session_id (api c') ->
  location_id c = location_id c' ->
  fst (discover backend c) = fst (discover backend c') /\
  devices (snd (discover backend c)) = devices (snd (discover backend c')).
Proof.
  intros Hb Hd Hd' He Hl.
  rewrite (discover_empty backend c Hd), (discover_empty backend c' Hd'), <- Hl.
  pose proof (get_devices_history backend (location_id c) (api c) (api c') Hb He) as Hf.
  destruct (get_devices backend (location_id c) (api c)) as [r a1].
  destruct (get_devices backend (location_id c) (api c')) as [r' a1'].
  simpl in Hf. subst r'.
  destruct r as [v|e]; [|split; [reflexivity | simpl; congruence]].
  destruct (py_iter v) as [items|e]; [|split; [reflexivity | simpl; congruence]].
  apply store_devices_devices. simpl. congruence.
Qed.

Lemma poll_devices_nil backend data c : poll_devices backend [] data c = (Ok data, c).
Proof. reflexivity. Qed.

(** X14. Against a backend whose answers do not depend on the requests sent
    before, a cycle run with a session that returns a poll result is
    followed by a cycle returning the same poll result. *)
Theorem cycle_idempotent
  (backend : Backend) (depth depth' : nat) (c c1 : SchluterDataUpdateCoordinator)
  (data : pydict SchluterThermostat) :
  history_independent backend ->
  truthy (_session_id (api c)) = true ->
  _async_update_data backend (S depth) c = (Ok data, c1) ->
  fst (_async_update_data backend (S depth') c1) = Ok data.
Proof.
  intros Hb Hs Hrun.
  rewrite (async_update_data_sessioned backend depth c Hs) in Hrun.
  destruct (update_body_frame backend c Hs) as [new [dd [Hsnd [_ [_ [Hknown _]]]]]].
  injection Hrun as Hfst Hc1.
  assert (Hok : fst (update_body backend c) = Ok data).
  { destruct (fst (update_body backend c)); [exact Hfst | discriminate Hfst]. }
  clear Hfst. rewrite Hsnd in Hc1. symmetry in Hc1.
  assert (He : _session_id (api c1) = _session_id (api c)) by (rewrite Hc1; reflexivity).
  assert (Hl : location_id c1 = location_id c) by (rewrite Hc1; reflexivity).
  assert (Hs1 : truthy (_session_id (api c1)) = true) by (rewrite He; exact Hs).
  rewrite (async_update_data_sessioned backend depth' c1 Hs1). simpl.
  assert (G : fst (update_body backend c1) = Ok data); [|rewrite G; reflexivity].
  rewrite update_body_eq in Hok. rewrite update_body_eq.
  destruct (devices c) as [|kv d0] eqn:Hd.
  - pose proof (discover_frame backend c Hs) as [new1 [d1 [Hdsnd _]]].
    destruct (discover backend c) as [[u|e] cd] eqn:Hdisc; [|discriminate Hok].
    simpl in Hdsnd.
    destruct (poll_devices_frame backend (keys (devices cd)) [] cd) as [new2 [Hp2 _]].
    assert (Hcd : snd (update_body backend c) = snd (poll_devices backend (keys (devices cd)) [] cd)).
    { rewrite update_body_eq, Hdisc. reflexivity. }
    rewrite Hsnd, <- Hc1, Hp2 in Hcd.
    assert (Hdev : devices c1 = devices cd) by (rewrite Hcd; reflexivity).
    assert (Hecd : _session_id (api cd) = _session_id (api c)) by (rewrite Hdsnd; reflexivity).
    destruct (devices cd) as [|kv1 d2] eqn:Hdcd.
    + simpl in Hok. inversion Hok; subst data.
      destruct (discover_history backend c1 c Hb Hdev Hd He Hl) as [Hf1 Hf2].
      rewrite Hdisc in Hf1, Hf2. simpl in Hf1, Hf2. rewrite Hdcd in Hf2.
      destruct (discover backend c1) as [[u1|e1] cd1]; simpl in Hf1, Hf2;
        [|discriminate Hf1].
      rewrite Hf2. reflexivity.
    + assert (Hne : devices c1 <> []) by (rewrite Hdev; discriminate).
      rewrite (discover_known backend c1 Hne), Hdev.
      rewrite <- Hok. apply poll_devices_history; [exact Hb | | congruence].
      rewrite Hdev, Hdcd. reflexivity.
  - assert (Hne : devices c <> []) by (rewrite Hd; discriminate).
    rewrite (discover_known backend c Hne) in Hok.
    rewrite <- Hd in Hknown. destruct (Hknown Hne) as [Hdd _].
    assert (Hdev : devices c1 = devices c) by (rewrite Hc1; simpl; exact Hdd).
    assert (Hne1 : devices c1 <> []) by (rewrite Hdev; exact Hne).
    rewrite (discover_known backend c1 Hne1), Hdev, <- Hok.
    apply poll_devices_history; [exact Hb | exact Hdev | exact He].
Qed.

Lemma cycle_idempotent_witness :
  fst (_async_update_data backend_one_fails 1
         (snd (_async_update_data backend_one_fails 1 coordinator_sessioned)))
  = fst (_async_update_data backend_one_fails 1 coordinator_sessioned).
Proof.
  apply (cycle_idempotent backend_one_fails 0 0 coordinator_sessioned).
  - intros sent sent' r. reflexivity.
  - reflexivity.
  - reflexivity.
Defined.

(** * Properties of the entities *)

(** ** The climate entities *)

Lemma init_all_known directory ids :
  Forall (fun id => exists m, dict_index directory id = Ok (JObj m)) ids ->
  exists entities,
    Climate.init_all directory ids = Ok entities /\
    map Climate._device_id entities = ids.
Proof.
  induction 1 as [|id rest [m Hm] Hrest [entities [IH1 IH2]]]; simpl.
  - exists []. split; reflexivity.
  - unfold Climate.init. rewrite Hm. simpl. rewrite IH1. simpl.
    eexists. split; [reflexivity|]. simpl. rewrite IH2. reflexivity.
Qed.

(** X15. The climate platform can always be set up from the poll result of a
    cycle run with a session and the directory the cycle leaves: it creates
    one entity per entry of the poll result, in its order, each for the
    device id of that entry, and raises nothing; from an empty poll result
    it creates none. *)
Theorem climate_entities_for_poll_result
  (backend : Backend) (depth : nat) (c c1 : SchluterDataUpdateCoordinator)
  (data : pydict SchluterThermostat) :
  truthy (_session_id (api c)) = true ->
  directory_wf (devices c) ->
  discover backend c = (Ok tt, c1) ->
  fst (_async_update_data backend (S depth) c) = Ok data ->
  exists entities,
    Climate.async_setup_entry
      (devices (snd (_async_update_data backend (S depth) c))) data = Ok entities /\
    map Climate._device_id entities = keys data.
Proof.
  intros Hs Hwf Hdisc Hrun.
  destruct (cycle_entries backend depth c c1 data Hs Hwf Hdisc Hrun) as [Hent Hdev].
  rewrite Hdev. unfold Climate.async_setup_entry.
  destruct data as [|kv rest]; [exists []; split; reflexivity|].
  apply init_all_known. unfold keys. apply Forall_map.
  eapply Forall_impl; [|exact Hent].
  intros [k st] [_ [m [Hm _]]]. exists m. exact Hm.
Qed.

Lemma climate_entities_for_poll_result_witness :
  exists entities,
    Climate.async_setup_entry
      (devices (snd (_async_update_data backend_one_fails 1 coordinator_sessioned)))
      (match fst (_async_update_data backend_one_fails 1 coordinator_sessioned) with
       | Ok data => data
       | Raise _ => []
       end) = Ok entities /\
    map Climate._device_id entities = [JNum 1; JNum 3].
Proof.
  destruct (climate_entities_for_poll_result backend_one_fails 0 coordinator_sessioned
              (snd (discover backend_one_fails coordinator_sessioned))
              (match fst (_async_update_data backend_one_fails 1 coordinator_sessioned) with
               | Ok data => data
               | Raise _ => []
               end))
    as [entities [H1 H2]].
  - reflexivity.
  - split; constructor.
  - reflexivity.
  - reflexivity.
  - exists entities. split; [exact H1 | exact H2].
Defined.

Lemma writes_to_put id sent session attribute value :
  key_eqb id id = true ->
  writes_to id (rev (sent ++ [PutAttribute session id attribute value]))
    = (attribute, value) :: writes_to id (rev sent).
Proof. intros H. rewrite rev_unit. simpl. rewrite H. reflexivity. Qed.

Lemma last_written_put id a session attribute value attribute' :
  key_eqb id id = true ->
  last_written (_session (record_request (PutAttribute session id attribute value) a))
               id attribute'
    = if String.eqb attribute attribute' then Some value
      else last_written (_session a) id attribute'.
Proof.
  intros H. unfold last_written. simpl _session. rewrite writes_to_put by exact H.
  reflexivity.
Qed.

(** A valid mode written with a session to a backend that applies writes. *)
Lemma set_mode_applied backend id attributes mode a :
  applies_writes backend id attributes ->
  truthy (_session_id a) = true ->
  valid_mode mode = true ->
  set_mode backend id mode a =
    (Ok true,
     record_request (PutAttribute (Some (_session_id a)) id "setpointMode" (JStr mode)) a).
Proof.
  intros Hb Hs Hv. rewrite set_mode_cases, Hv, Hs. simpl.
  destruct (Hb (_session a) (Some (_session_id a))) as [Hput _].
  destruct (Hput "setpointMode" (JStr mode)) as [st [m [Hr Hst]]].
  rewrite Hr. simpl. apply Z.leb_gt in Hst. rewrite Hst. reflexivity.
Qed.

Lemma set_occupancy_mode_applied backend id attributes occupancy a :
  applies_writes backend id attributes ->
  truthy (_session_id a) = true ->
  valid_occupancy occupancy = true ->
  set_occupancy_mode backend id occupancy a =
    (Ok true,
     record_request
       (PutAttribute (Some (_session_id a)) id "occupancyMode" (JStr occupancy)) a).
Proof.
  intros Hb Hs Hv. rewrite set_occupancy_mode_cases, Hv, Hs. simpl.
  destruct (Hb (_session a) (Some (_session_id a))) as [Hput _].
  destruct (Hput "occupancyMode" (JStr occupancy)) as [st [m [Hr Hst]]].
  rewrite Hr. simpl. apply Z.leb_gt in Hst. rewrite Hst. reflexivity.
Qed.

(** A status read from a backend that applies writes. *)
Lemma status_after_writes backend id attributes a :
  applies_writes backend id attributes ->
  truthy (_session_id a) = true ->
  exists st m,
    fst (get_thermostat_status backend id a) = Ok st /\
    target_temp st = match dict_get m "roomSetpoint" with Some v => v | None => JNull end /\
    setpoint_mode st = match dict_get m "setpointMode" with Some v => v | None => JNull end /\
    occupancy_mode st = match dict_get m "occupancyMode" with Some v => v | None => JNull end /\
    forall attribute value,
      In attribute attributes ->
      last_written (_session a) id attribute = Some value ->
      dict_get m attribute = Some value.
Proof.
  intros Hb Hs.
  destruct (Hb (_session a) (Some (_session_id a))) as [_ [code [m [Hr [Hc [Hok Hw]]]]]].
  rewrite (get_thermostat_status_answered backend id a code m Hs Hr Hc).
  apply parse_thermostat_accepts with (id := id) in Hok. destruct Hok as [st Hp].
  rewrite Hp.
  destruct (parse_thermostat_fields id (JObj m) st Hp)
    as [m0 [Hm [_ [_ [Ht [_ [_ [Hmode [Hocc _]]]]]]]]].
  inversion Hm; subst m0.
  exists st, m. repeat split; assumption.
Qed.

(** X17. Against a backend that applies the writes of mode and occupancy,
    selecting the preset home, away or schedule with a session succeeds, and
    the status read afterwards shows the preset that was selected. *)
Theorem preset_round_trip
  (backend : Backend) (id : json) (preset : string) (a : SchluterAPI) :
  applies_writes backend id ["setpointMode"; "occupancyMode"] ->
  truthy (_session_id a) = true ->
  hashable id = true ->
  In preset ["home"; "away"; "schedule"] ->
  let w := Climate.async_set_preset_mode backend id preset a in
  fst w = Ok tt /\
  exists st,
    fst (get_thermostat_status backend id (snd w)) = Ok st /\
    Climate.preset_mode st = preset.
Proof.
  intros Hb Hs Hh Hin w. apply key_eqb_refl in Hh.
  assert (Hw : forall a1, truthy (_session_id a1) = true ->
            forall mode, last_written (_session a1) id "setpointMode" = Some (JStr mode) ->
            forall occ, (mode = "schedule" \/
                         last_written (_session a1) id "occupancyMode" = Some (JStr occ)) ->
            exists st,
              fst (get_thermostat_status backend id a1) = Ok st /\
              Climate.preset_mode st
                = if String.eqb mode "schedule" then "schedule"
                  else if String.eqb occ "away" then "away" else "home").
  { intros a1 Hs1 mode Hmode occ Hocc.
    destruct (status_after_writes backend id _ a1 Hb Hs1)
      as [st [m [Hst [_ [Hsm [Hso Hlast]]]]]].
    exists st. split; [exact Hst|]. unfold Climate.preset_mode.
    rewrite Hsm, (Hlast "setpointMode" (JStr mode) (or_introl eq_refl) Hmode). simpl.
    destruct (String.eqb_spec mode "schedule") as [E | E]; [reflexivity|].
    destruct Hocc as [Hocc | Hocc]; [contradiction|].
    rewrite Hso, (Hlast "occupancyMode" (JStr occ) (or_intror (or_introl eq_refl)) Hocc).
    reflexivity. }
  unfold w, Climate.async_set_preset_mode.
  destruct Hin as [E | [E | [E | []]]]; subst preset; simpl; unfold bind, ret.
  - rewrite (set_mode_applied backend id _ "manual" a Hb Hs eq_refl).
    rewrite (set_occupancy_mode_applied backend id _ "home" (record_request _ a) Hb Hs eq_refl).
    simpl. split; [reflexivity|].
    match goal with
    | |- exists st, fst (get_thermostat_status backend id ?X) = _ /\ _ => set (a2 := X)
    end.
    assert (Hm : last_written (_session a2) id "setpointMode" = Some (JStr "manual"))
      by (unfold a2; rewrite !last_written_put by exact Hh; reflexivity).
    assert (Ho : last_written (_session a2) id "occupancyMode" = Some (JStr "home"))
      by (unfold a2; rewrite !last_written_put by exact Hh; reflexivity).
    exact (Hw a2 Hs "manual" Hm "home" (or_intror Ho)).
  - rewrite (set_mode_applied backend id _ "manual" a Hb Hs eq_refl).
    rewrite (set_occupancy_mode_applied backend id _ "away" (record_request _ a) Hb Hs eq_refl).
    simpl. split; [reflexivity|].
    match goal with
    | |- exists st, fst (get_thermostat_status backend id ?X) = _ /\ _ => set (a2 := X)
    end.
    assert (Hm : last_written (_session a2) id "setpointMode" = Some (JStr "manual"))
      by (unfold a2; rewrite !last_written_put by exact Hh; reflexivity).
    assert (Ho : last_written (_session a2) id "occupancyMode" = Some (JStr "away"))
      by (unfold a2; rewrite !last_written_put by exact Hh; reflexivity).
    exact (Hw a2 Hs "manual" Hm "away" (or_intror Ho)).
  - rewrite (set_mode_applied backend id _ "schedule" a Hb Hs eq_refl). simpl.
    split; [reflexivity|].
    match goal with
    | |- exists st, fst (get_thermostat_status backend id ?X) = _ /\ _ => set (a2 := X)
    end.
    assert (Hm : last_written (_session a2) id "setpointMode" = Some (JStr "schedule"))
      by (unfold a2; rewrite !last_written_put by exact Hh; reflexivity).
    exact (Hw a2 Hs "schedule" Hm "home" (or_introl eq_refl)).
Qed.

Lemma dict_get_filter (keep : string -> bool) (l : list (string * json)) (k : string) :
  dict_get (filter (fun kv => keep (fst kv)) l) k
    = if keep k then dict_get l k else None.
Proof.
  induction l as [|[k' v] l IH]; simpl; [destruct (keep k); reflexivity|].
  destruct (keep k') eqn:Ek'; simpl.
  - destruct (String.eqb_spec k' k) as [E | E].
    + subst k'. rewrite Ek'. reflexivity.
    + exact IH.
  - destruct (String.eqb_spec k' k) as [E | E].
    + subst k'. rewrite Ek' in *. exact IH.
    + exact IH.
Qed.

Lemma applies_writes_incl backend id attributes attributes' :
  applies_writes backend id attributes ->
  incl attributes' attributes ->
  applies_writes backend id attributes'.
Proof.
  intros H Hincl sent session. destruct (H sent session) as [Hput [st [m [Hr [Hst [Hok Hw]]]]]].
  split; [exact Hput|]. exists st, m.
  split; [exact Hr|]. split; [exact Hst|]. split; [exact Hok|].
  intros attribute value Hin. apply Hw. apply Hincl. exact Hin.
Qed.

(** [backend_keeping_writes] applies the writes of the three attributes it
    keeps. *)
Lemma backend_keeping_writes_applies id :
  applies_writes backend_keeping_writes id ["setpointMode"; "occupancyMode"; "roomSetpoint"].
Proof.
  intros sent session. split.
  - intros attribute value. exists 200%Z, []. split; reflexivity.
  - eexists 200%Z, _. split; [reflexivity|]. split; [reflexivity|]. split.
    + unfold status_payload_ok. rewrite !(dict_get_filter kept_attribute). simpl.
      split; exact I.
    + intros attribute value Hin Hl. rewrite (dict_get_filter kept_attribute).
      assert (E : kept_attribute attribute = true).
      { apply existsb_exists. exists attribute. split; [exact Hin | apply String.eqb_refl]. }
      rewrite E. exact Hl.
Qed.

Lemma preset_round_trip_witness :
  exists st,
    fst (get_thermostat_status backend_keeping_writes (JNum 1)
           (snd (Climate.async_set_preset_mode backend_keeping_writes (JNum 1) "away"
                   api_sessioned))) = Ok st /\
    Climate.preset_mode st = "away".
Proof.
  destruct (preset_round_trip backend_keeping_writes (JNum 1) "away" api_sessioned)
    as [_ H].
  - apply (applies_writes_incl _ _ _ _ (backend_keeping_writes_applies (JNum 1))).
    intros x [E | [E | []]]; subst x; simpl; tauto.
  - reflexivity.
  - reflexivity.
  - right. left. reflexivity.
  - exact H.
Defined.



Lemma set_temperature_applied backend id attributes t a :
  applies_writes backend id attributes ->
  truthy (_session_id a) = true ->
  exists echoed,
    set_temperature backend id t a =
      (Ok echoed,
       record_request (PutAttribute (Some (_session_id a)) id "roomSetpoint" (JNum t)) a).
Proof.
  intros Hb Hs. rewrite set_temperature_cases, Hs. simpl.
  destruct (Hb (_session a) (Some (_session_id a))) as [Hput _].
  destruct (Hput "roomSetpoint" (JNum t)) as [st [m [Hr Hst]]].
  rewrite Hr. simpl. apply Z.leb_gt in Hst. rewrite Hst. eexists. reflexivity.
Qed.

(** X19. Against a backend that applies the writes of the setpoint, with a
    session: turning the entity off writes the setpoint 5 and the status
    read afterwards gives the mode off; turning it to heat when the poll
    result shows no setpoint, or one of 5 or less, writes the setpoint 20
    and the status read afterwards gives the mode heat. *)
Theorem hvac_mode_round_trip
  (backend : Backend) (id : json) (a : SchluterAPI) (data : pydict SchluterThermostat) :
  applies_writes backend id ["roomSetpoint"] ->
  truthy (_session_id a) = true ->
  hashable id = true ->
  (let w := Climate.async_set_hvac_mode backend data id Climate.OFF a in
   fst w = Ok tt /\
   exists st,
     fst (get_thermostat_status backend id (snd w)) = Ok st /\
     Climate.hvac_mode st = Ok Climate.OFF) /\
  (forall t,
     Climate.thermostat data id = Ok t ->
     (target_temp t = JNull \/
      exists q, num_of (target_temp t) = Some q /\ (q <= 5)%Q) ->
     let w := Climate.async_set_hvac_mode backend data id Climate.HEAT a in
     fst w = Ok tt /\
     exists st,
       fst (get_thermostat_status backend id (snd w)) = Ok st /\
       Climate.hvac_mode st = Ok Climate.HEAT).
Proof.
  intros Hb Hs Hh. apply key_eqb_refl in Hh.
  assert (Hw : forall t0,
            exists st,
              fst (get_thermostat_status backend id
                     (record_request
                        (PutAttribute (Some (_session_id a)) id "roomSetpoint" (JNum t0)) a))
                = Ok st /\
              target_temp st = JNum t0).
  { intros t0.
    destruct (status_after_writes backend id _
                (record_request
                   (PutAttribute (Some (_session_id a)) id "roomSetpoint" (JNum t0)) a)
                Hb Hs) as [st [m [Hst [Ht [_ [_ Hlast]]]]]].
    exists st. split; [exact Hst|].
    rewrite Ht, (Hlast "roomSetpoint" (JNum t0) (or_introl eq_refl)); [reflexivity|].
    rewrite last_written_put by exact Hh. reflexivity. }
  split.
  - unfold Climate.async_set_hvac_mode, bind, ret.
    destruct (set_temperature_applied backend id _ Climate.DEFAULT_MIN_TEMP a Hb Hs)
      as [echoed He].
    rewrite He. simpl. split; [reflexivity|].
    destruct (Hw Climate.DEFAULT_MIN_TEMP) as [st [Hst Ht]].
    exists st. split; [exact Hst|]. unfold Climate.hvac_mode. rewrite Ht. reflexivity.
  - intros t Hth Hlow. unfold Climate.async_set_hvac_mode, bind, ret, lift_result.
    rewrite Hth.
    assert (Hl : match target_temp t with
                 | JNull => Ok true
                 | v => py_le v Climate.DEFAULT_MIN_TEMP
                 end = Ok true).
    { destruct Hlow as [E | [q [Hq Hle]]].
      - rewrite E. reflexivity.
      - unfold py_le. apply Qle_bool_iff in Hle.
        destruct (target_temp t); simpl in Hq; try discriminate Hq;
          simpl; inversion Hq; subst; unfold Climate.DEFAULT_MIN_TEMP; rewrite Hle;
          reflexivity. }
    rewrite Hl.
    destruct (set_temperature_applied backend id _ 20 a Hb Hs) as [echoed He].
    rewrite He. simpl. split; [reflexivity|].
    destruct (Hw 20%Q) as [st [Hst Ht]].
    exists st. split; [exact Hst|]. unfold Climate.hvac_mode. rewrite Ht. reflexivity.
Qed.

Lemma hvac_mode_round_trip_witness :
  exists st,
    fst (get_thermostat_status backend_keeping_writes (JNum 1)
           (snd (Climate.async_set_hvac_mode backend_keeping_writes [] (JNum 1)
                   Climate.OFF api_sessioned))) = Ok st /\
    Climate.hvac_mode st = Ok Climate.OFF.
Proof.
  destruct (hvac_mode_round_trip backend_keeping_writes (JNum 1) api_sessioned [])
    as [[_ H] _].
  - apply (applies_writes_incl _ _ _ _ (backend_keeping_writes_applies (JNum 1))).
    intros x [E | []]; subst x; simpl; tauto.
  - reflexivity.
  - reflexivity.
  - exact H.
Defined.

(** ** The sensors *)

Lemma dict_contains_index {V} (d : pydict V) (k : json) :
  dict_contains d k = true -> exists v, dict_index d k = Ok v.
Proof.
  induction d as [|[k' v] d IH]; simpl; [discriminate|].
  destruct (key_eqb k' k); simpl; [intros _; eexists; reflexivity | exact IH].
Qed.

(** X20. The GFCI sensor has no value exactly when its device is absent from
    the poll result; otherwise its value is one of the options ok, error and
    unknown: the status of the snapshot when that is one of them, and
    unknown for any other status, a missing one included. Its icon is the
    check mark only for the value ok. *)
Theorem gfci_value_in_options (data : pydict SchluterThermostat) (id : json) :
  (dict_contains data id = false -> Sensor.gfci_native_value data id = Ok None) /\
  (dict_contains data id = true ->
     exists t s,
       dict_index data id = Ok t /\
       Sensor.gfci_native_value data id = Ok (Some (JStr s)) /\
       In s Sensor.gfci_options /\
       (In (gfci_status t) (map JStr Sensor.gfci_options) -> JStr s = gfci_status t) /\
       (~ In (gfci_status t) (map JStr Sensor.gfci_options) -> s = "unknown") /\
       (Sensor.gfci_icon (Some (JStr s)) = "mdi:shield-check" <-> s = "ok")).
Proof.
  unfold Sensor.gfci_native_value. split.
  - intros H. rewrite H. reflexivity.
  - intros H. rewrite H. destruct (dict_contains_index data id H) as [t Ht].
    rewrite Ht. simpl bind_r. exists t.
    assert (Icon : forall s, In s Sensor.gfci_options ->
              (Sensor.gfci_icon (Some (JStr s)) = "mdi:shield-check" <-> s = "ok")).
    { intros s [E | [E | [E | []]]]; subst s; simpl; split; intros C;
        try reflexivity; discriminate C. }
    destruct (gfci_status t) as [| | |s| |] eqn:Eg;
      try (exists "unknown"; simpl;
           split; [reflexivity|]; split; [reflexivity|];
           split; [right; right; left; reflexivity|];
           split; [intros [C | [C | [C | []]]]; discriminate C|];
           split; [reflexivity | split; intros C; discriminate C]).
    simpl existsb.
    destruct (String.eqb_spec s "ok") as [E1 | N1].
    { subst s. exists "ok". simpl.
      split; [reflexivity|]. split; [reflexivity|]. split; [left; reflexivity|].
      split; [reflexivity|]. split; [intros C; exfalso; apply C; left; reflexivity|].
      split; reflexivity. }
    destruct (String.eqb_spec s "error") as [E2 | N2].
    { subst s. exists "error". simpl.
      split; [reflexivity|]. split; [reflexivity|]. split; [right; left; reflexivity|].
      split; [reflexivity|].
      split; [intros C; exfalso; apply C; right; left; reflexivity|].
      split; intros C; discriminate C. }
    destruct (String.eqb_spec s "unknown") as [E3 | N3].
    { subst s. exists "unknown". simpl.
      split; [reflexivity|]. split; [reflexivity|].
      split; [right; right; left; reflexivity|].
      split; [reflexivity|]. split; [reflexivity|].
      split; intros C; discriminate C. }
    exists "unknown". simpl.
    rewrite (proj2 (String.eqb_neq s "ok") N1), (proj2 (String.eqb_neq s "error") N2),
      (proj2 (String.eqb_neq s "unknown") N3). simpl.
    split; [reflexivity|]. split; [reflexivity|].
    split; [right; right; left; reflexivity|].
    split.
    { intros [C | [C | [C | []]]]; inversion C; subst s; contradiction. }
    split; [reflexivity|]. split; intros C; discriminate C.
Qed.

Lemma handle_update_total data id s :
  exists s',
    Sensor._handle_coordinator_update data id s = Ok s' /\
    (Sensor.intervals s <= Sensor.intervals s' <= S (Sensor.intervals s))%nat.
Proof.
  unfold Sensor._handle_coordinator_update.
  destruct (dict_contains data id) eqn:E.
  - destruct (dict_contains_index data id E) as [t Ht]. rewrite Ht. simpl.
    eexists. split; [reflexivity|]. simpl.
    destruct (heating t && Sensor._last_heating s); lia.
  - exists s. split; [reflexivity | lia].
Qed.

Lemma heating_streak updates id :
  forall n,
  Forall (fun data => exists t, dict_contains data id = true /\
                                dict_index data id = Ok t /\ heating t = true) updates ->
  Sensor.handle_updates updates id (Sensor.mkHeatingTime n true)
    = Ok (Sensor.mkHeatingTime (n + List.length updates) true).
Proof.
  induction updates as [|data rest IH]; intros n Hall; simpl.
  - rewrite Nat.add_0_r. reflexivity.
  - inversion Hall as [|x l [t [Hc [Ht Hh]]] Hrest]; subst x l.
    unfold Sensor._handle_coordinator_update. rewrite Hc, Ht. simpl.
    rewrite Hh. simpl. rewrite (IH (S n) Hrest). rewrite Nat.add_succ_r. reflexivity.
Qed.

(** X21. The heating-time sensor never fails on a poll result and its
    accumulated time never goes down: over any sequence of updates it grows
    by at most one interval per update and is never reset. Starting from a
    new sensor, a run of updates that all report the device heating credits
    one interval fewer than there are updates: the first one only arms the
    sensor. *)
Theorem heating_time_accumulates
  (updates : list (pydict SchluterThermostat)) (id : json) (s : Sensor.HeatingTime) :
  (exists s',
     Sensor.handle_updates updates id s = Ok s' /\
     (Sensor.intervals s <= Sensor.intervals s'
        <= Sensor.intervals s + List.length updates)%nat) /\
  (Forall (fun data => exists t, dict_contains data id = true /\
                                 dict_index data id = Ok t /\ heating t = true) updates ->
   updates <> [] ->
   Sensor.handle_updates updates id Sensor.new_heating_time
     = Ok (Sensor.mkHeatingTime (pred (List.length updates)) true)).
Proof.
  split.
  - revert s. induction updates as [|data rest IH]; intros s; simpl.
    + exists s. split; [reflexivity | lia].
    + destruct (handle_update_total data id s) as [s1 [H1 B1]]. rewrite H1. simpl.
      destruct (IH s1) as [s' [H2 B2]]. exists s'. split; [exact H2 | lia].
  - intros Hall Hne.
    destruct updates as [|data rest]; [contradiction|].
    inversion Hall as [|x l [t [Hc [Ht Hh]]] Hrest]; subst x l.
    simpl. unfold Sensor._handle_coordinator_update at 1. rewrite Hc, Ht. simpl.
    rewrite Hh. simpl. apply (heating_streak rest id 0 Hrest).
Qed.

Lemma gfci_value_in_options_witness :
  Sensor.gfci_native_value poll_result_heating (JNum 1) = Ok (Some (JStr "unknown")) /\
  Sensor.gfci_native_value poll_result_heating (JNum 2) = Ok None.
Proof.
  destruct (gfci_value_in_options poll_result_heating (JNum 1)) as [_ H1].
  destruct (gfci_value_in_options poll_result_heating (JNum 2)) as [H2 _].
  split; [|apply H2; reflexivity].
  destruct (H1 eq_refl) as [t [s [Ht [Hv [_ [_ [Hu _]]]]]]].
  inversion Ht; subst t. rewrite Hv. rewrite Hu; [reflexivity|].
  simpl. intros [C | [C | [C | []]]]; discriminate C.
Defined.

Lemma heating_time_accumulates_witness :
  Sensor.handle_updates [poll_result_heating; []; poll_result_heating; poll_result_heating]
    (JNum 1) Sensor.new_heating_time
    = Ok (Sensor.mkHeatingTime 2 true) /\
  Sensor.handle_updates [poll_result_heating; poll_result_heating; poll_result_heating]
    (JNum 1) Sensor.new_heating_time
    = Ok (Sensor.mkHeatingTime 2 true).
Proof.
  split; [reflexivity|].
  destruct (heating_time_accumulates
              [poll_result_heating; poll_result_heating; poll_result_heating]
              (JNum 1) Sensor.new_heating_time) as [_ H].
  apply H.
  - repeat constructor; exists snapshot_heating; repeat split.
  - discriminate.
Defined.
